(** * mdpy: a live Markdown editor and previewer

    Shallow embedding of [app.py] (class [MarkdownViewer]) and the
    properties of its preview renderer, its theme toggle and its file
    controller.

    The Python program runs on three collaborators that are not part of the
    repository: the [markdown2] converter, the optional [pygments]
    formatter and the host (the Qt widgets and the file system).  The
    converter and the formatter are an interface ([Libraries]); the widgets
    are fields of the program state; the file system is a finite map from
    paths to byte sequences, read and written through a strict UTF-8 codec.
    Fonts and the splitter layout carry no behaviour and are left out.

    Two things the host does are taken as follows.  A call of the
    converter returns: the source has no handler for a conversion that
    raises, and none is modelled.  A text file is read and written in text
    mode, where Python translates line endings, and the editor widget
    normalises some characters of the text it is given.  Both are the
    identity on the texts the editor hands out, whose line breaks are
    single line feeds, on a host whose line separator is the line feed;
    the model reads, writes and stores a text as it is, and a property
    about a text that comes from a file asks for a [plain_text]. *)

From Stdlib Require Import NArith Lia String Ascii.
From stdpp Require Import gmap list pretty.

Local Open Scope N_scope.

(** ** Python strings *)

(** A Python [str] is a sequence of code points. *)
Abbreviation pystr := (list N).

(** A literal of the source: one code point per character. *)
Definition py (s : string) : pystr :=
  (fun a => N_of_ascii a) <$> list_ascii_of_string s.

Definition dq : pystr := [34].
Definition nl : pystr := [10].

(** The lines of a literal that spans several lines of the source. *)
Fixpoint unlines (ls : list pystr) : pystr :=
  match ls with
  | [] => []
  | [l] => l
  | l :: ls' => l ++ nl ++ unlines ls'
  end.

(** Truth value of a [str] in a condition: the empty string is false. *)
Definition truthy (s : pystr) : bool :=
  match s with [] => false | _ => true end.

Fixpoint starts_with (p s : pystr) : bool :=
  match p, s with
  | [], _ => true
  | a :: p', b :: s' => (a =? b) && starts_with p' s'
  | _ :: _, [] => false
  end.

(** [needle in hay] *)
Fixpoint occursb (needle hay : pystr) : bool :=
  starts_with needle hay ||
  match hay with
  | [] => false
  | _ :: hay' => occursb needle hay'
  end.

(** [needle] is a contiguous part of [hay]. *)
Definition occurs (needle hay : pystr) : Prop :=
  exists pre post, hay = pre ++ needle ++ post.

(** ** The UTF-8 codec of [open(..., encoding="utf-8")] *)

Definition is_surrogate (c : N) : bool := (0xD800 <=? c) && (c <=? 0xDFFF).

(** A code point that the strict codec accepts. *)
Definition scalar (c : N) : bool := (c <? 0x110000) && negb (is_surrogate c).

Definition utf8_encode_char (c : N) : option (list N) :=
  if c <? 0x80 then Some [c]
  else if c <? 0x800 then Some [0xC0 + c / 64; 0x80 + c mod 64]
  else if c <? 0x10000 then
    if is_surrogate c then None
    else Some [0xE0 + c / 4096; 0x80 + (c / 64) mod 64; 0x80 + c mod 64]
  else if c <? 0x110000 then
    Some [0xF0 + c / 262144; 0x80 + (c / 4096) mod 64;
          0x80 + (c / 64) mod 64; 0x80 + c mod 64]
  else None.

(** [text.encode("utf-8")]; [None] stands for [UnicodeEncodeError]. *)
Fixpoint utf8_encode (s : pystr) : option (list N) :=
  match s with
  | [] => Some []
  | c :: s' =>
    match utf8_encode_char c, utf8_encode s' with
    | Some bs, Some r => Some (bs ++ r)
    | _, _ => None
    end
  end.

Definition is_cont (b : N) : bool := (0x80 <=? b) && (b <? 0xC0).

(** [data.decode("utf-8")]; [None] stands for [UnicodeDecodeError]:
    truncated and overlong forms, surrogates and code points above
    U+10FFFF are refused. *)
Fixpoint utf8_decode (bs : list N) : option pystr :=
  match bs with
  | [] => Some []
  | b0 :: r0 =>
    if b0 <? 0x80 then cons b0 <$> utf8_decode r0
    else if b0 <? 0xC2 then None
    else if b0 <? 0xE0 then
      match r0 with
      | b1 :: r1 =>
        if is_cont b1
        then cons ((b0 - 0xC0) * 64 + (b1 - 0x80)) <$> utf8_decode r1
        else None
      | _ => None
      end
    else if b0 <? 0xF0 then
      match r0 with
      | b1 :: b2 :: r2 =>
        let c := (b0 - 0xE0) * 4096 + (b1 - 0x80) * 64 + (b2 - 0x80) in
        if is_cont b1 && is_cont b2 && (0x800 <=? c) && negb (is_surrogate c)
        then cons c <$> utf8_decode r2
        else None
      | _ => None
      end
    else if b0 <? 0xF5 then
      match r0 with
      | b1 :: b2 :: b3 :: r3 =>
        let c := (b0 - 0xF0) * 262144 + (b1 - 0x80) * 4096
                 + (b2 - 0x80) * 64 + (b3 - 0x80) in
        if is_cont b1 && is_cont b2 && is_cont b3
           && (0x10000 <=? c) && (c <? 0x110000)
        then cons c <$> utf8_decode r3
        else None
      | _ => None
      end
    else None
  end.

(** A text that can be written as UTF-8. *)
Definition utf8_representable (s : pystr) : Prop :=
  Forall (fun c => scalar c = true) s.

(** ** The host: exceptions and the file system *)

Inductive exn : Type :=
| OSError (errno : N) (strerror filename : pystr)
| UnicodeDecodeError
| UnicodeEncodeError.

Definition FileNotFoundError (filename : pystr) : exn :=
  OSError 2 (py "No such file or directory") filename.

(** [str(e)], as interpolated by [f"...{e}"], in outline: Python writes
    the file name with [repr], which is the name in single quotes for the
    usual names, and the codec adds the byte, the position and the reason
    to its message.  The properties below hold for any message. *)
Definition exn_str (e : exn) : pystr :=
  match e with
  | OSError n msg f =>
      py "[Errno " ++ py (pretty n) ++ py "] " ++ msg
      ++ py ": '" ++ f ++ py "'"
  | UnicodeDecodeError => py "'utf-8' codec can't decode bytes"
  | UnicodeEncodeError => py "'utf-8' codec can't encode characters"
  end.

(** The file system: the regular files with their bytes, and the paths on
    which [open] is refused for reading or for writing (a missing
    directory, a permission, a full disk), with the error raised. *)
Record World : Type := {
  files : gmap (list N) (list N);
  read_fault : pystr -> option exn;
  write_fault : pystr -> option exn
}.

Definition set_files (m : gmap (list N) (list N)) (w : World) : World :=
  {| files := m; read_fault := read_fault w; write_fault := write_fault w |}.

(** A file object returned by [open]: its name and, when opened for
    reading, its bytes. *)
Record File : Type := { f_name : pystr; f_bytes : list N }.

Inductive Mode : Type := mode_r | mode_w.

(** What the user and the host see happen, in order. *)
Inductive Event : Type :=
| AskOpenFileName
| AskSaveFileName
| Critical (title text : pystr)
| Opened (path : pystr) (mode : Mode).

(** ** The data model of [app.py] *)

Record AppConfig : Type := {
  default_width : N;
  default_height : N;
  window_title : pystr;
  editor_font_family : pystr;
  editor_font_size : N
}.

Definition AppConfig_default : AppConfig :=
  {| default_width := 1200;
     default_height := 800;
     window_title := py "Joe's Markdown Viewer";
     editor_font_family := py "Menlo";
     editor_font_size := 14 |}.

Record Theme : Type := {
  pygments_css : pystr;
  html_css : pystr;
  app_stylesheet : pystr
}.

(** The two imported libraries.  [Markdown] is the state of a converter
    object, which [convert] may change; [HtmlFormatter] is [None] when the
    import of pygments fails, and otherwise maps a style name and a
    selector to the style definitions. *)
Class Libraries : Type := {
  Markdown : Type;
  Markdown_new : list pystr -> Markdown;
  Markdown_convert : Markdown -> pystr -> pystr * Markdown;
  HtmlFormatter : option (pystr -> pystr -> pystr)
}.

(** ** The literals of [_create_themes] *)

Definition light_html_css : pystr :=
  unlines [
    [];
    py "            body {";
    py "                font-family: -apple-system, BlinkMacSystemFont, " ++ dq ++ py "Segoe UI" ++ dq ++ py ", " ++ dq ++ py "Noto Sans" ++ dq ++ py ", Helvetica, Arial, sans-serif;";
    py "                line-height: 1.6; background-color: #ffffff; color: #24292e; padding: 10px;";
    py "            }";
    py "            h1, h2, h3, h4, h5, h6 { border-bottom: 1px solid #eaecef; color: #24292e; }";
    py "            a { color: #0366d6; }";
    py "            code { background-color: rgba(27,31,35,.05); }";
    py "            blockquote { color: #6a737d; border-left: .25em solid #dfe2e5; }";
    py "            body > table th, body > table td { border: 1px solid #dfe2e5; }";
    py "            body > table tr { background-color: #fff; border-top: 1px solid #c6cbd1; }";
    py "            body > table tr:nth-child(2n) { background-color: #f6f8fa; }";
    py "            hr { background-color: #e1e4e8; }";
    py "        " ].

Definition light_app_stylesheet : pystr :=
  unlines [
    [];
    py "            QMainWindow, QMenuBar, QMenu { background-color: #f6f8fa; color: #24292e; }";
    py "            QMenuBar::item:selected, QMenu::item:selected { background-color: #e1e4e8; }";
    py "            QTextEdit { background-color: #ffffff; color: #24292e; border: 1px solid #d1d5da; selection-background-color: #0366d6; selection-color: #ffffff; }";
    py "            QSplitter::handle { background-color: #e1e4e8; }";
    py "            QScrollBar::handle { background: #d1d5da; }";
    py "        " ].

Definition dark_html_css : pystr :=
  unlines [
    [];
    py "            body {";
    py "                font-family: -apple-system, BlinkMacSystemFont, " ++ dq ++ py "Segoe UI" ++ dq ++ py ", " ++ dq ++ py "Noto Sans" ++ dq ++ py ", Helvetica, Arial, sans-serif;";
    py "                line-height: 1.6; background-color: #2b2b2b; color: #f0f0f0; padding: 10px;";
    py "            }";
    py "            h1, h2, h3, h4, h5, h6 { border-bottom: 1px solid #444; color: #f0f0f0; }";
    py "            a { color: #61afef; }";
    py "            code { background-color: #3c3c3c; }";
    py "            blockquote { color: #999; border-left: .25em solid #555; }";
    py "            body > table th, body > table td { border: 1px solid #444; }";
    py "            body > table tr { background-color: #2b2b2b; border-top: 1px solid #444; }";
    py "            body > table tr:nth-child(2n) { background-color: #313131; }";
    py "            hr { background-color: #444; }";
    py "        " ].

Definition dark_app_stylesheet : pystr :=
  unlines [
    [];
    py "            QMainWindow, QWidget { background-color: #2b2b2b; color: #f0f0f0; }";
    py "            QMenuBar, QMenu { background-color: #3c3c3c; color: #f0f0f0; }";
    py "            QMenuBar::item:selected, QMenu::item:selected { background-color: #555; }";
    py "            QTextEdit { background-color: #2b2b2b; color: #f8f8f2; border: 1px solid #444; selection-background-color: #4a4a4a; }";
    py "            QSplitter::handle { background-color: #3c3c3c; }";
    py "            QScrollBar::handle { background: #555; }";
    py "        " ].

(** ** The document template of [_update_preview]

    The f-string of the source, cut at its four replacement fields: the
    text up to [{theme.pygments_css}], the text between the two style
    fields, the text up to [{html_output}] and the text after it. *)

Definition doc_shared : pystr :=
  unlines [
    [];
    py "        <html>";
    py "        <head>";
    py "            <style>";
    py "                /* Shared Styles */";
    py "                h1, h2, h3, h4, h5, h6 {";
    py "                    font-weight: 600; line-height: 1.25; padding-bottom: .3em;";
    py "                }";
    py "                a:hover { text-decoration: underline; }";
    py "                code {";
    py "                    padding: .2em .4em; margin: 0;";
    py "                    font-family: " ++ dq ++ py "SFMono-Regular" ++ dq ++ py ", Consolas, " ++ dq ++ py "Liberation Mono" ++ dq ++ py ", Menlo, Courier, monospace;";
    py "                    font-size: 85%; border-radius: 6px;";
    py "                }";
    py "                .codehilite { border-radius: 6px; }";
    py "                blockquote { padding: 0 1em; margin-left: 0; }";
    py "                body > table {";
    py "                    border-collapse: collapse; margin: 1rem 0; display: block;";
    py "                    width: 100%; overflow: auto;";
    py "                }";
    py "                hr { border: 0; height: .25em; padding: 0; margin: 24px 0; }";
    py "                ul, ol { padding-left: 2em; }";
    [];
    py "                /* Theme-specific styles */";
    py "                " ].

Definition doc_between_css : pystr :=
  unlines [
    [];
    py "                " ].

Definition doc_before_body : pystr :=
  unlines [
    [];
    py "            </style>";
    py "        </head>";
    py "        <body>";
    py "            " ].

Definition doc_after_body : pystr :=
  unlines [
    [];
    py "        </body>";
    py "        </html>";
    py "        " ].

Definition styled_html (theme : Theme) (html_output : pystr) : pystr :=
  doc_shared ++ pygments_css theme ++ doc_between_css ++ html_css theme
  ++ doc_before_body ++ html_output ++ doc_after_body.

(** The text that [__init__] puts in the editor. *)
Definition placeholder : pystr :=
  unlines [
    py "```python";
    py "# Type your markdown here!";
    py "# Syntax highlighting is now active.";
    py "def hello(name):";
    py "    print(f'Hello, {name}!')";
    [];
    py "hello('World')";
    py "```";
    [];
    py "| Header 1 | Header 2 |";
    py "|----------|----------|";
    py "| Cell 1   | Cell 2   |";
    [];
    py "- Tables";
    py "- ~~Strike-through~~";
    py "- And more!";
    [] ].

(** ** The program state

    The attributes of the [MarkdownViewer] object, the observable state of
    its widgets, and the host:
    - [config]: [self.config];
    - [current_file_path]: [self.current_file_path]: [None] or a path;
    - [is_dark_mode]: [self.is_dark_mode];
    - [markdown_converter]: [self.markdown_converter];
    - [light_theme]: [self.light_theme];
    - [dark_theme]: [self.dark_theme];
    - [editor_text]: the plain text held by [self.editor];
    - [textChanged_connected]: [self.editor.textChanged] is connected to [_update_preview];
    - [preview_html]: the document last handed to [self.preview];
    - [dark_mode_checked]: the check mark of [self.dark_mode_action];
    - [styleSheet]: the style sheet applied to the window;
    - [windowTitle]: the title of the window;
    - [geometry]: the geometry of the window;
    - [fs]: the file system;
    - [trace]: the dialogs shown and the files opened, oldest first. *)

Section Viewer.
Context {L : Libraries}.

Record State : Type := {
  config : AppConfig;
  current_file_path : option pystr;
  is_dark_mode : bool;
  markdown_converter : Markdown;
  light_theme : Theme;
  dark_theme : Theme;
  editor_text : pystr;
  textChanged_connected : bool;
  preview_html : pystr;
  dark_mode_checked : bool;
  styleSheet : pystr;
  windowTitle : pystr;
  geometry : N * N * N * N;
  fs : World;
  trace : list Event
}.

Definition set_config (v : AppConfig) (s : State) : State :=
  {| config := v; current_file_path := current_file_path s;
     is_dark_mode := is_dark_mode s;
     markdown_converter := markdown_converter s;
     light_theme := light_theme s; dark_theme := dark_theme s;
     editor_text := editor_text s;
     textChanged_connected := textChanged_connected s;
     preview_html := preview_html s;
     dark_mode_checked := dark_mode_checked s; styleSheet := styleSheet s;
     windowTitle := windowTitle s; geometry := geometry s; fs := fs s;
     trace := trace s |}.

Definition set_current_file_path (v : option pystr) (s : State) : State :=
  {| config := config s; current_file_path := v;
     is_dark_mode := is_dark_mode s;
     markdown_converter := markdown_converter s;
     light_theme := light_theme s; dark_theme := dark_theme s;
     editor_text := editor_text s;
     textChanged_connected := textChanged_connected s;
     preview_html := preview_html s;
     dark_mode_checked := dark_mode_checked s; styleSheet := styleSheet s;
     windowTitle := windowTitle s; geometry := geometry s; fs := fs s;
     trace := trace s |}.

Definition set_is_dark_mode (v : bool) (s : State) : State :=
  {| config := config s; current_file_path := current_file_path s;
     is_dark_mode := v; markdown_converter := markdown_converter s;
     light_theme := light_theme s; dark_theme := dark_theme s;
     editor_text := editor_text s;
     textChanged_connected := textChanged_connected s;
     preview_html := preview_html s;
     dark_mode_checked := dark_mode_checked s; styleSheet := styleSheet s;
     windowTitle := windowTitle s; geometry := geometry s; fs := fs s;
     trace := trace s |}.

Definition set_markdown_converter (v : Markdown) (s : State) : State :=
  {| config := config s; current_file_path := current_file_path s;
     is_dark_mode := is_dark_mode s; markdown_converter := v;
     light_theme := light_theme s; dark_theme := dark_theme s;
     editor_text := editor_text s;
     textChanged_connected := textChanged_connected s;
     preview_html := preview_html s;
     dark_mode_checked := dark_mode_checked s; styleSheet := styleSheet s;
     windowTitle := windowTitle s; geometry := geometry s; fs := fs s;
     trace := trace s |}.

Definition set_light_theme (v : Theme) (s : State) : State :=
  {| config := config s; current_file_path := current_file_path s;
     is_dark_mode := is_dark_mode s;
     markdown_converter := markdown_converter s; light_theme := v;
     dark_theme := dark_theme s; editor_text := editor_text s;
     textChanged_connected := textChanged_connected s;
     preview_html := preview_html s;
     dark_mode_checked := dark_mode_checked s; styleSheet := styleSheet s;
     windowTitle := windowTitle s; geometry := geometry s; fs := fs s;
     trace := trace s |}.

Definition set_dark_theme (v : Theme) (s : State) : State :=
  {| config := config s; current_file_path := current_file_path s;
     is_dark_mode := is_dark_mode s;
     markdown_converter := markdown_converter s;
     light_theme := light_theme s; dark_theme := v;
     editor_text := editor_text s;
     textChanged_connected := textChanged_connected s;
     preview_html := preview_html s;
     dark_mode_checked := dark_mode_checked s; styleSheet := styleSheet s;
     windowTitle := windowTitle s; geometry := geometry s; fs := fs s;
     trace := trace s |}.

Definition set_editor_text (v : pystr) (s : State) : State :=
  {| config := config s; current_file_path := current_file_path s;
     is_dark_mode := is_dark_mode s;
     markdown_converter := markdown_converter s;
     light_theme := light_theme s; dark_theme := dark_theme s;
     editor_text := v; textChanged_connected := textChanged_connected s;
     preview_html := preview_html s;
     dark_mode_checked := dark_mode_checked s; styleSheet := styleSheet s;
     windowTitle := windowTitle s; geometry := geometry s; fs := fs s;
     trace := trace s |}.

Definition set_textChanged_connected (v : bool) (s : State) : State :=
  {| config := config s; current_file_path := current_file_path s;
     is_dark_mode := is_dark_mode s;
     markdown_converter := markdown_converter s;
     light_theme := light_theme s; dark_theme := dark_theme s;
     editor_text := editor_text s; textChanged_connected := v;
     preview_html := preview_html s;
     dark_mode_checked := dark_mode_checked s; styleSheet := styleSheet s;
     windowTitle := windowTitle s; geometry := geometry s; fs := fs s;
     trace := trace s |}.

Definition set_preview_html (v : pystr) (s : State) : State :=
  {| config := config s; current_file_path := current_file_path s;
     is_dark_mode := is_dark_mode s;
     markdown_converter := markdown_converter s;
     light_theme := light_theme s; dark_theme := dark_theme s;
     editor_text := editor_text s;
     textChanged_connected := textChanged_connected s; preview_html := v;
     dark_mode_checked := dark_mode_checked s; styleSheet := styleSheet s;
     windowTitle := windowTitle s; geometry := geometry s; fs := fs s;
     trace := trace s |}.

Definition set_dark_mode_checked (v : bool) (s : State) : State :=
  {| config := config s; current_file_path := current_file_path s;
     is_dark_mode := is_dark_mode s;
     markdown_converter := markdown_converter s;
     light_theme := light_theme s; dark_theme := dark_theme s;
     editor_text := editor_text s;
     textChanged_connected := textChanged_connected s;
     preview_html := preview_html s; dark_mode_checked := v;
     styleSheet := styleSheet s; windowTitle := windowTitle s;
     geometry := geometry s; fs := fs s; trace := trace s |}.

Definition set_styleSheet (v : pystr) (s : State) : State :=
  {| config := config s; current_file_path := current_file_path s;
     is_dark_mode := is_dark_mode s;
     markdown_converter := markdown_converter s;
     light_theme := light_theme s; dark_theme := dark_theme s;
     editor_text := editor_text s;
     textChanged_connected := textChanged_connected s;
     preview_html := preview_html s;
     dark_mode_checked := dark_mode_checked s; styleSheet := v;
     windowTitle := windowTitle s; geometry := geometry s; fs := fs s;
     trace := trace s |}.

Definition set_windowTitle (v : pystr) (s : State) : State :=
  {| config := config s; current_file_path := current_file_path s;
     is_dark_mode := is_dark_mode s;
     markdown_converter := markdown_converter s;
     light_theme := light_theme s; dark_theme := dark_theme s;
     editor_text := editor_text s;
     textChanged_connected := textChanged_connected s;
     preview_html := preview_html s;
     dark_mode_checked := dark_mode_checked s; styleSheet := styleSheet s;
     windowTitle := v; geometry := geometry s; fs := fs s; trace := trace s |}.

Definition set_geometry (v : N * N * N * N) (s : State) : State :=
  {| config := config s; current_file_path := current_file_path s;
     is_dark_mode := is_dark_mode s;
     markdown_converter := markdown_converter s;
     light_theme := light_theme s; dark_theme := dark_theme s;
     editor_text := editor_text s;
     textChanged_connected := textChanged_connected s;
     preview_html := preview_html s;
     dark_mode_checked := dark_mode_checked s; styleSheet := styleSheet s;
     windowTitle := windowTitle s; geometry := v; fs := fs s;
     trace := trace s |}.

Definition set_fs (v : World) (s : State) : State :=
  {| config := config s; current_file_path := current_file_path s;
     is_dark_mode := is_dark_mode s;
     markdown_converter := markdown_converter s;
     light_theme := light_theme s; dark_theme := dark_theme s;
     editor_text := editor_text s;
     textChanged_connected := textChanged_connected s;
     preview_html := preview_html s;
     dark_mode_checked := dark_mode_checked s; styleSheet := styleSheet s;
     windowTitle := windowTitle s; geometry := geometry s; fs := v;
     trace := trace s |}.

Definition set_trace (v : list Event) (s : State) : State :=
  {| config := config s; current_file_path := current_file_path s;
     is_dark_mode := is_dark_mode s;
     markdown_converter := markdown_converter s;
     light_theme := light_theme s; dark_theme := dark_theme s;
     editor_text := editor_text s;
     textChanged_connected := textChanged_connected s;
     preview_html := preview_html s;
     dark_mode_checked := dark_mode_checked s; styleSheet := styleSheet s;
     windowTitle := windowTitle s; geometry := geometry s; fs := fs s;
     trace := v |}.

(** ** Statements: state passing with exceptions

    A statement runs from a state to a state and either returns a value or
    raises; what it changed before raising stays changed. *)

Definition M (A : Type) : Type := State -> (exn + A) * State.

Definition ret {A} (x : A) : M A := fun s => (inr x, s).

Definition bind {A B} (m : M A) (k : A -> M B) : M B :=
  fun s =>
    match m s with
    | (inr x, s') => k x s'
    | (inl e, s') => (inl e, s')
    end.

Definition raise {A} (e : exn) : M A := fun s => (inl e, s).

(** [try: body  except Exception as e: handler] *)
Definition try_except {A} (body : M A) (handler : exn -> M A) : M A :=
  fun s =>
    match body s with
    | (inl e, s') => handler e s'
    | r => r
    end.

Definition gets {A} (f : State -> A) : M A := fun s => (inr (f s), s).

Definition modify (f : State -> State) : M unit := fun s => (inr tt, f s).

Definition when (b : bool) (m : M unit) : M unit := if b then m else ret tt.

(** The state in which a statement leaves the program. *)
Definition exec {A} (m : M A) (s : State) : State := snd (m s).

(** A statement returned without raising. *)
Definition returns {A} (m : M A) (s : State) : Prop :=
  exists x, fst (m s) = inr x.

End Viewer.

Declare Scope stmt_scope.
Delimit Scope stmt_scope with stmt.
Notation "x <- m ;; k" := (bind m (fun x => k))
  (at level 100, m at next level, right associativity) : stmt_scope.
Notation "m ;; k" := (bind m (fun _ => k))
  (at level 100, right associativity) : stmt_scope.
Local Open Scope stmt_scope.

Section Methods.
Context {L : Libraries}.

(** ** The host's operations *)

Definition log (e : Event) : M unit :=
  modify (fun s => set_trace (trace s ++ [e]) s).

(** [open(path, "r", encoding="utf-8")]: refused by the host, or the file
    is missing, or the file object holds the bytes of the file. *)
Definition open_r (path : pystr) : M File :=
  log (Opened path mode_r) ;;
  w <- gets fs ;;
  match read_fault w path with
  | Some e => raise e
  | None =>
    match files w !! path with
    | None => raise (FileNotFoundError path)
    | Some bs => ret {| f_name := path; f_bytes := bs |}
    end
  end.

(** [f.read()]: the whole file, decoded. *)
Definition f_read (f : File) : M pystr :=
  match utf8_decode (f_bytes f) with
  | Some text => ret text
  | None => raise UnicodeDecodeError
  end.

(** [open(path, "w", encoding="utf-8")]: the file is created or emptied. *)
Definition open_w (path : pystr) : M File :=
  log (Opened path mode_w) ;;
  w <- gets fs ;;
  match write_fault w path with
  | Some e => raise e
  | None =>
    modify (set_fs (set_files (<[path := []]> (files w)) w)) ;;
    ret {| f_name := path; f_bytes := [] |}
  end.

(** [f.write(text)], flushed when the [with] block closes the file. *)
Definition f_write (f : File) (text : pystr) : M unit :=
  match utf8_encode text with
  | Some bs =>
    modify (fun s => set_fs (set_files (<[f_name f := bs]> (files (fs s))) (fs s)) s)
  | None => raise UnicodeEncodeError
  end.

(** [QFileDialog.getOpenFileName(...)]: [answer] is the path the user
    picks, the empty string when the dialog is cancelled. *)
Definition getOpenFileName (answer : pystr) : M pystr :=
  log AskOpenFileName ;; ret answer.

(** [QFileDialog.getSaveFileName(...)] *)
Definition getSaveFileName (answer : pystr) : M pystr :=
  log AskSaveFileName ;; ret answer.

(** [QMessageBox.critical(self, title, text)] *)
Definition critical (title text : pystr) : M unit :=
  log (Critical title text).

(** ** The widgets *)

(** [self.setGeometry(x, y, w, h)]: the geometry asked for.  What Qt makes
    of it (sizes are capped, and a value beyond a C int raises, see
    [fits_c_int]) is not modelled, and no property reads the field. *)
Definition setGeometry (x y w h : N) : M unit :=
  modify (set_geometry (x, y, w, h)).

Definition setStyleSheet (css : pystr) : M unit := modify (set_styleSheet css).

Definition setWindowTitle (title : pystr) : M unit :=
  modify (set_windowTitle title).

Definition dark_mode_action_setChecked (b : bool) : M unit :=
  modify (set_dark_mode_checked b).

Definition preview_setHtml (html : pystr) : M unit :=
  modify (set_preview_html html).

Definition editor_toPlainText : M pystr := gets editor_text.

(** [self.markdown_converter.convert(text)]: the one converter object made
    in [__init__] is used for every call and keeps what the call did to it. *)
Definition markdown_converter_convert (text : pystr) : M pystr :=
  fun s =>
    let (html, m) := Markdown_convert (markdown_converter s) text in
    (inr html, set_markdown_converter m s).

(** ** The methods of [MarkdownViewer] *)

Definition _create_themes : M unit :=
  let light_pygments_css :=
    match HtmlFormatter with
    | Some formatter => formatter (py "default") (py ".codehilite")
    | None => []
    end in
  modify (set_light_theme
            {| pygments_css := light_pygments_css;
               html_css := light_html_css;
               app_stylesheet := light_app_stylesheet |}) ;;
  let dark_pygments_css :=
    match HtmlFormatter with
    | Some formatter => formatter (py "monokai") (py ".codehilite")
    | None => []
    end in
  modify (set_dark_theme
            {| pygments_css := dark_pygments_css;
               html_css := dark_html_css;
               app_stylesheet := dark_app_stylesheet |}).

Definition _setup_window : M unit :=
  cfg <- gets config ;;
  setGeometry 100 100 (default_width cfg) (default_height cfg).

Definition _update_preview : M unit :=
  markdown_text <- editor_toPlainText ;;
  html_output <- markdown_converter_convert markdown_text ;;
  theme <- gets (fun s => if is_dark_mode s then dark_theme s else light_theme s) ;;
  preview_setHtml (styled_html theme html_output).

(** The signal [textChanged] of the editor calls the slots connected to it. *)
Definition emit_textChanged : M unit :=
  connected <- gets textChanged_connected ;;
  when connected _update_preview.

(** [self.editor.setPlainText(text)]: replaces the text and emits
    [textChanged]. *)
Definition editor_setPlainText (text : pystr) : M unit :=
  modify (set_editor_text text) ;;
  emit_textChanged.

(** Creates the two panes, both empty, and connects the editor's signal. *)
Definition _setup_ui : M unit :=
  modify (set_editor_text []) ;;
  modify (set_textChanged_connected true) ;;
  modify (set_preview_html []).

(** Of the menu, the state is the check mark of the dark-mode action; the
    connections of the actions to their slots are [handle] below. *)
Definition _setup_menu : M unit :=
  dark <- gets is_dark_mode ;;
  dark_mode_action_setChecked dark.

Definition _apply_theme : M unit :=
  theme <- gets (fun s => if is_dark_mode s then dark_theme s else light_theme s) ;;
  setStyleSheet (app_stylesheet theme) ;;
  _update_preview.

Definition _toggle_dark_mode : M unit :=
  modify (fun s => set_is_dark_mode (negb (is_dark_mode s)) s) ;;
  dark <- gets is_dark_mode ;;
  dark_mode_action_setChecked dark ;;
  _apply_theme.

Definition _update_window_title : M unit :=
  title <- gets (fun s => window_title (config s)) ;;
  path <- gets current_file_path ;;
  let title :=
    match path with
    | Some p => if truthy p then p ++ py " - " ++ title else title
    | None => title
    end in
  setWindowTitle title.

Definition _open_file (answer : pystr) : M unit :=
  file_path <- getOpenFileName answer ;;
  when (truthy file_path)
    (try_except
       (f <- open_r file_path ;;
        text <- f_read f ;;
        editor_setPlainText text ;;
        modify (set_current_file_path (Some file_path)) ;;
        _update_window_title)
       (fun e => critical (py "Error") (py "Could not open file: " ++ exn_str e))).

Definition _save_logic (file_path : pystr) : M unit :=
  try_except
    (f <- open_w file_path ;;
     text <- editor_toPlainText ;;
     f_write f text ;;
     modify (set_current_file_path (Some file_path)) ;;
     _update_window_title)
    (fun e => critical (py "Error") (py "Could not save file: " ++ exn_str e)).

Definition _save_file_as (answer : pystr) : M unit :=
  file_path <- getSaveFileName answer ;;
  when (truthy file_path) (_save_logic file_path).

Definition _save_file (answer : pystr) : M unit :=
  path <- gets current_file_path ;;
  match path with
  | Some p => if truthy p then _save_logic p else _save_file_as answer
  | None => _save_file_as answer
  end.

(** The theme in use: [self.dark_theme if self.is_dark_mode else
    self.light_theme]. *)
Definition current_theme (s : State) : Theme :=
  if is_dark_mode s then dark_theme s else light_theme s.

(** The file access of [_open_file] taken alone:
    [with open(path, "r", encoding="utf-8") as f: f.read()]. *)
Definition read_text (path : pystr) : M pystr :=
  f <- open_r path ;; f_read f.

(** The file access of [_save_logic] taken alone:
    [with open(path, "w", encoding="utf-8") as f: f.write(text)] with the
    editor's text. *)
Definition write_text (path : pystr) : M unit :=
  f <- open_w path ;;
  text <- editor_toPlainText ;;
  f_write f text.

(** A statement raised [e]. *)
Definition raises {A} (m : M A) (s : State) (e : exn) : Prop :=
  fst (m s) = inl e.

(** The window before [__init__] has run. *)
Definition boot (cfg : AppConfig) (w : World) : State :=
  {| config := cfg;
     current_file_path := None;
     is_dark_mode := false;
     markdown_converter := Markdown_new [];
     light_theme := {| pygments_css := []; html_css := []; app_stylesheet := [] |};
     dark_theme := {| pygments_css := []; html_css := []; app_stylesheet := [] |};
     editor_text := [];
     textChanged_connected := false;
     preview_html := [];
     dark_mode_checked := false;
     styleSheet := [];
     windowTitle := [];
     geometry := (0, 0, 0, 0);
     fs := w;
     trace := [] |}.

Definition __init__ (cfg : AppConfig) : M unit :=
  modify (set_config cfg) ;;
  modify (set_current_file_path None) ;;
  modify (set_is_dark_mode true) ;;
  modify (set_markdown_converter
            (Markdown_new [py "fenced-code-blocks"; py "tables"; py "strike"])) ;;
  _create_themes ;;
  _setup_window ;;
  _setup_ui ;;
  _setup_menu ;;
  _apply_theme ;;
  editor_setPlainText placeholder ;;
  _update_window_title.

(** ** The events of the running application *)

(** What the user can do: type in the editor, or trigger a menu action;
    for the file actions, [answer] is what the user gives the file dialog
    if it is shown. *)
Inductive Action : Type :=
| Edit (text : pystr)
| ToggleDarkMode
| OpenFile (answer : pystr)
| SaveFile (answer : pystr)
| SaveFileAs (answer : pystr).

(** An edit replaces the editor's text and emits [textChanged]; a menu
    action calls the slot connected to it in [_setup_menu]. *)
Definition handle (a : Action) : M unit :=
  match a with
  | Edit text => modify (set_editor_text text) ;; emit_textChanged
  | ToggleDarkMode => _toggle_dark_mode
  | OpenFile answer => _open_file answer
  | SaveFile answer => _save_file answer
  | SaveFileAs answer => _save_file_as answer
  end.

Definition step (a : Action) (s : State) : State := exec (handle a) s.

(** The state when [main] shows the window. *)
Definition launched (cfg : AppConfig) (w : World) : State :=
  exec (__init__ cfg) (boot cfg w).

(** The states the application goes through. *)
Inductive reachable : State -> Prop :=
| reachable_launched cfg w : reachable (launched cfg w)
| reachable_step a s : reachable s -> reachable (step a s).

(** ** Notions used by the properties *)

(** The fragment the converter returns for the editor's text. *)
Definition fragment (s : State) : pystr :=
  fst (Markdown_convert (markdown_converter s) (editor_text s)).

(** What [_open_file] does once the file has been read. *)
Definition opened (path text : pystr) : M unit :=
  editor_setPlainText text ;;
  modify (set_current_file_path (Some path)) ;;
  _update_window_title.

(** What [_save_logic] does once the file has been written. *)
Definition saved (path : pystr) : M unit :=
  modify (set_current_file_path (Some path)) ;;
  _update_window_title.

(** The converter's own guarantee: a call starts by clearing what the
    call before left in the object, so what [convert] returns for a text
    is what the same object would have returned without the call before.
    Nothing is said of two objects made with different extras. *)
Definition converter_forgets : Prop :=
  forall (m : Markdown) (before text : pystr),
    fst (Markdown_convert (snd (Markdown_convert m before)) text) =
    fst (Markdown_convert m text).

(** [m'] is the converter object [m] after further calls. *)
Inductive used_from (m : Markdown) : Markdown -> Prop :=
| used_now : used_from m m
| used_call m' text :
    used_from m m' -> used_from m (snd (Markdown_convert m' text)).

(** No stale preview: rendering again would show the same document. *)
Definition in_sync (s : State) : Prop :=
  preview_html s = preview_html (exec _update_preview s).

(** A theme is active when the window wears its chrome and the preview is
    the editor's text rendered with its rules. *)
Definition active (theme : Theme) (s : State) : Prop :=
  styleSheet s = app_stylesheet theme /\
  preview_html s = styled_html theme (fragment s).

Definition one_theme_active (s : State) : Prop :=
  (active (dark_theme s) s /\ ~ active (light_theme s) s) \/
  (active (light_theme s) s /\ ~ active (dark_theme s) s).

(** The themes are the two built by [_create_themes]. *)
Definition themes_built (s : State) : Prop :=
  light_theme s = light_theme (exec _create_themes s) /\
  dark_theme s = dark_theme (exec _create_themes s).

(** The current path is [None] or a non-empty string. *)
Definition path_unset_or_named (s : State) : Prop :=
  current_file_path s = None \/
  exists p, current_file_path s = Some p /\ truthy p = true.

(** The state between two events. *)
Definition settled (s : State) : Prop :=
  textChanged_connected s = true /\
  themes_built s /\
  styleSheet s = app_stylesheet (current_theme s) /\
  dark_mode_checked s = is_dark_mode s /\
  path_unset_or_named s /\
  in_sync s.

(** Nothing that the user or the host can see differs, the trace apart. *)
Definition same_interface (s s' : State) : Prop :=
  editor_text s' = editor_text s /\
  current_file_path s' = current_file_path s /\
  windowTitle s' = windowTitle s /\
  preview_html s' = preview_html s /\
  fs s' = fs s.

(** The editor, the preview, the theme and the converter are as they were. *)
Definition view_unchanged (s s' : State) : Prop :=
  is_dark_mode s' = is_dark_mode s /\
  markdown_converter s' = markdown_converter s /\
  light_theme s' = light_theme s /\
  dark_theme s' = dark_theme s /\
  editor_text s' = editor_text s /\
  textChanged_connected s' = textChanged_connected s /\
  preview_html s' = preview_html s /\
  dark_mode_checked s' = dark_mode_checked s /\
  styleSheet s' = styleSheet s.

(** The events that a run from [s] to [s'] added to the trace. *)
Definition new_events (s s' : State) : list Event :=
  drop (length (trace s)) (trace s').

(** A save to [path] that took the program from [s] to [s'], after the
    events [asked], tried the write first: when the write raised, an error
    dialog follows it and the path and the title are as before; when it
    did not, the file holds the encoded text and the path and the title
    are the new ones. *)
Definition write_first (asked : list Event) (path : pystr) (s s' : State) : Prop :=
  (forall e, raises (write_text path) s e ->
     new_events s s' =
       asked ++ [Opened path mode_w;
                 Critical (py "Error") (py "Could not save file: " ++ exn_str e)] /\
     current_file_path s' = current_file_path s /\
     windowTitle s' = windowTitle s) /\
  (returns (write_text path) s ->
     new_events s s' = asked ++ [Opened path mode_w] /\
     files (fs s') !! path = utf8_encode (editor_text s) /\
     current_file_path s' = Some path /\
     windowTitle s' = path ++ py " - " ++ window_title (config s)).

Definition run_actions (l : list Action) (s : State) : State :=
  fold_left (fun s a => step a s) l s.

(** The preview document holds the fragment and all three style strings
    of the theme in use. *)
Definition interpolates_all_three (s : State) : Prop :=
  let out := preview_html (exec _update_preview s) in
  occurs (fragment s) out /\
  occurs (pygments_css (current_theme s)) out /\
  occurs (html_css (current_theme s)) out /\
  occurs (app_stylesheet (current_theme s)) out.

(** ** Further notions: what the handlers keep *)

(** The title is the one [_update_window_title] would set now. *)
Definition title_in_sync (s : State) : Prop :=
  windowTitle s = windowTitle (exec _update_window_title s).

(** What [__init__] sets up once. *)
Definition setup_unchanged (s s' : State) : Prop :=
  config s' = config s /\
  geometry s' = geometry s /\
  light_theme s' = light_theme s /\
  dark_theme s' = dark_theme s /\
  textChanged_connected s' = textChanged_connected s.

(** The window is consistent with the attributes of the viewer: the
    editor's signal is connected, the themes are the built ones, the
    chrome and the check mark follow the dark-mode flag, and the title
    follows the current path. *)
Definition wired (s : State) : Prop :=
  textChanged_connected s = true /\
  themes_built s /\
  styleSheet s = app_stylesheet (current_theme s) /\
  dark_mode_checked s = is_dark_mode s /\
  path_unset_or_named s /\
  title_in_sync s.

(** The events that concern the view only: typing and the theme toggle. *)
Definition is_view_action (a : Action) : bool :=
  match a with
  | Edit _ | ToggleDarkMode => true
  | _ => false
  end.

(** The code points that come through the reading of a file and the
    editor widget as they are.  The others do not: text mode turns a
    carriage return into a line feed; the widget turns the no-break space
    into a space and the separators U+2028, U+2029, U+FDD0 and U+FDD1 into
    line feeds, and drops a byte-order mark and a lone surrogate. *)
Definition widget_plain (c : N) : bool :=
  negb ((c =? 13) || (c =? 0xA0) || (c =? 0x2028) || (c =? 0x2029)
        || (c =? 0xFDD0) || (c =? 0xFDD1) || (c =? 0xFEFF) || is_surrogate c).

(** A text that the editor holds exactly as the file gave it. *)
Definition plain_text (text : pystr) : Prop :=
  forallb widget_plain text = true.

(** [setGeometry] takes C ints: with a width or a height of 2^31 or more
    the call raises, [__init__] does not finish and no window is shown. *)
Definition fits_c_int (cfg : AppConfig) : Prop :=
  default_width cfg < 0x80000000 /\ default_height cfg < 0x80000000.

End Methods.

(** One rule from each group of the shared style rules: heading weight,
    link hover, code padding, table layout, horizontal-rule sizing. *)
Definition shared_rules : list pystr :=
  [ py "font-weight: 600";
    py "a:hover { text-decoration: underline; }";
    py "padding: .2em .4em";
    py "border-collapse: collapse";
    py "hr { border: 0; height: .25em;" ].

(** A theme with another chrome style sheet. *)
Definition with_chrome (css : pystr) (theme : Theme) : Theme :=
  {| pygments_css := pygments_css theme;
     html_css := html_css theme;
     app_stylesheet := css |}.

(** ** Sample collaborators and inputs *)

(** A converter that turns a text into one paragraph and counts its calls,
    and no pygments. *)
Definition paragraph_libraries : Libraries :=
  {| Markdown := nat;
     Markdown_new := fun _ => 0%nat;
     Markdown_convert := fun m text => (py "<p>" ++ text ++ py "</p>" ++ nl, S m);
     HtmlFormatter := None |}.

(** A converter that leaks its state: the output carries the number of
    earlier calls. *)
Definition leaking_libraries : Libraries :=
  {| Markdown := nat;
     Markdown_new := fun _ => 0%nat;
     Markdown_convert := fun m text => (py (pretty m) ++ text, S m);
     HtmlFormatter := None |}.

(** A file system with one note, one path that cannot be read and one
    directory that cannot be written. *)
Definition sample_world : World :=
  {| files := {[ py "notes.md" := [35; 32; 104; 105; 10] ]};
     read_fault := fun p =>
       if decide (p = py "secret.md")
       then Some (OSError 13 (py "Permission denied") p) else None;
     write_fault := fun p =>
       if starts_with (py "/readonly/") p
       then Some (OSError 30 (py "Read-only file system") p) else None |}.

Definition sample_launched : @State paragraph_libraries :=
  launched AppConfig_default sample_world.

Definition sample_leaking : @State leaking_libraries :=
  launched AppConfig_default sample_world.

(** A converter whose output depends on the extras it was made with, and
    not on its earlier calls, which it counts. *)
Definition extras_libraries : Libraries :=
  {| Markdown := (list (list N) * nat)%type;
     Markdown_new := fun extras => (extras, 0%nat);
     Markdown_convert := fun m text =>
       (py "<p>" ++ text ++ py "</p>" ++ nl
        ++ py "<!-- extras: " ++ py (pretty (length (fst m))) ++ py " -->" ++ nl,
        (fst m, S (snd m)));
     HtmlFormatter := None |}.

(** The window with that converter, as shown and after events that bring
    back the text and the theme. *)
Definition sample_window : @State extras_libraries :=
  launched AppConfig_default sample_world.

Definition sample_events : list Action :=
  [ToggleDarkMode; Edit (py "x"); ToggleDarkMode; Edit placeholder].

Definition sample_window_later : @State extras_libraries :=
  run_actions sample_events sample_window.

(** The sample window after two toggles of the theme. *)
Definition sample_toggled : @State paragraph_libraries :=
  step ToggleDarkMode (step ToggleDarkMode sample_launched).

(** A text with characters of one, two, three and four bytes. *)
Definition sample_text : pystr := [0x48; 0xE9; 0x20AC; 0x1F600; 10].

Definition sample_edited : @State paragraph_libraries :=
  step (Edit sample_text) sample_launched.

(** The sample window after a save to [out.md]. *)
Definition sample_saved : @State paragraph_libraries :=
  step (SaveFileAs (py "out.md")) sample_edited.

(** The sample window after the note has been opened. *)
Definition sample_opened : @State paragraph_libraries :=
  step (OpenFile (py "notes.md")) sample_launched.


(** ** The codec round trip *)

Local Ltac ediv := zify; Z.to_euclidean_division_equations; lia.

Local Ltac decide_tests :=
  repeat match goal with
  | |- context [N.ltb ?a ?b] =>
      destruct (N.ltb_spec a b); try (exfalso; ediv)
  | |- context [N.leb ?a ?b] =>
      destruct (N.leb_spec a b); try (exfalso; ediv)
  end.

Lemma utf8_decode_encode_char (c : N) (bs r : list N) :
  utf8_encode_char c = Some bs ->
  utf8_decode (bs ++ r) = cons c <$> utf8_decode r.
Proof.
  unfold utf8_encode_char, is_surrogate.
  destruct (N.ltb_spec c 0x80).
  { intros [= <-]. cbn [app utf8_decode].
    destruct (N.ltb_spec c 0x80); [reflexivity | lia]. }
  destruct (N.ltb_spec c 0x800).
  { intros [= <-]. cbn [app utf8_decode]. unfold is_cont.
    decide_tests. cbn [andb]. f_equal. f_equal. ediv. }
  destruct (N.ltb_spec c 0x10000).
  { destruct (N.leb_spec 0xD800 c), (N.leb_spec c 0xDFFF); cbn [andb];
      try discriminate.
    all: intros [= <-]; cbn [app utf8_decode]; unfold is_cont, is_surrogate.
    all: decide_tests; cbn [andb negb]; f_equal; f_equal; ediv. }
  destruct (N.ltb_spec c 0x110000); [| discriminate].
  intros [= <-]. cbn [app utf8_decode]. unfold is_cont.
  decide_tests. cbn [andb]. f_equal. f_equal. ediv.
Qed.

Lemma utf8_decode_encode (s : pystr) (bs : list N) :
  utf8_encode s = Some bs -> utf8_decode bs = Some s.
Proof.
  revert bs. induction s as [| c s IH]; intros bs; cbn [utf8_encode].
  - intros [= <-]. reflexivity.
  - destruct (utf8_encode_char c) as [cs |] eqn:Hc; [| discriminate].
    destruct (utf8_encode s) as [r |]; [| discriminate].
    intros [= <-].
    rewrite (utf8_decode_encode_char c cs r Hc), (IH r eq_refl).
    reflexivity.
Qed.

Lemma utf8_encode_char_scalar (c : N) :
  scalar c = true -> is_Some (utf8_encode_char c).
Proof.
  unfold scalar, utf8_encode_char. intros [Hlt Hs]%andb_prop.
  apply negb_true_iff in Hs. rewrite Hs.
  apply N.ltb_lt in Hlt.
  repeat match goal with
  | |- context [N.ltb c ?b] => destruct (N.ltb_spec c b); [by eexists |]
  end.
  lia.
Qed.

Lemma utf8_encode_representable (s : pystr) :
  utf8_representable s -> is_Some (utf8_encode s).
Proof.
  induction 1 as [| c s Hc _ IH]; cbn [utf8_encode]; [by eexists |].
  destruct (utf8_encode_char_scalar c Hc) as [cs ->].
  destruct IH as [r ->]. by eexists.
Qed.

(** ** How the statements run *)

Section Properties.
Context {L : Libraries}.
Implicit Types (s : State) (path answer text : pystr) (e : exn).

Local Ltac run :=
  unfold setGeometry, setStyleSheet, setWindowTitle,
    dark_mode_action_setChecked, preview_setHtml, editor_toPlainText,
    markdown_converter_convert, critical, getOpenFileName, getSaveFileName,
    log, exec in *;
  unfold bind, ret, raise, try_except, gets, modify, when in *;
  cbn [config current_file_path is_dark_mode markdown_converter light_theme
       dark_theme editor_text textChanged_connected preview_html
       dark_mode_checked styleSheet windowTitle geometry fs trace
       set_config set_current_file_path set_is_dark_mode
       set_markdown_converter set_light_theme set_dark_theme set_editor_text
       set_textChanged_connected set_preview_html set_dark_mode_checked
       set_styleSheet set_windowTitle set_geometry set_fs set_trace
       f_name f_bytes fst snd] in *.

Lemma _update_preview_run s :
  _update_preview s =
  (inr tt,
   set_preview_html (styled_html (current_theme s) (fragment s))
     (set_markdown_converter
        (snd (Markdown_convert (markdown_converter s) (editor_text s))) s)).
Proof.
  unfold _update_preview, fragment, current_theme. run.
  destruct (Markdown_convert _ _) as [html m]. reflexivity.
Qed.

Lemma _update_window_title_run s :
  _update_window_title s =
  (inr tt,
   set_windowTitle
     (match current_file_path s with
      | Some p =>
          if truthy p then p ++ py " - " ++ window_title (config s)
          else window_title (config s)
      | None => window_title (config s)
      end) s).
Proof. reflexivity. Qed.

Lemma _apply_theme_run s :
  _apply_theme s =
  _update_preview (set_styleSheet (app_stylesheet (current_theme s)) s).
Proof. reflexivity. Qed.

Lemma _toggle_dark_mode_run s :
  _toggle_dark_mode s =
  _apply_theme
    (set_dark_mode_checked (negb (is_dark_mode s))
       (set_is_dark_mode (negb (is_dark_mode s)) s)).
Proof. reflexivity. Qed.

Lemma emit_textChanged_run s :
  emit_textChanged s =
  if textChanged_connected s then _update_preview s else (inr tt, s).
Proof.
  unfold emit_textChanged. run. by destruct (textChanged_connected s).
Qed.


(** Reading changes nothing but the trace. *)
Lemma read_text_state path s :
  snd (read_text path s) = set_trace (trace s ++ [Opened path mode_r]) s.
Proof.
  unfold read_text, open_r, f_read. run.
  destruct (read_fault (fs s) path); [reflexivity |].
  destruct (files (fs s) !! path) as [bs |]; [| reflexivity].
  run. by destruct (utf8_decode bs).
Qed.

Lemma read_text_result path s :
  fst (read_text path s) =
  match read_fault (fs s) path with
  | Some e => inl e
  | None =>
    match files (fs s) !! path with
    | None => inl (FileNotFoundError path)
    | Some bs =>
      match utf8_decode bs with
      | Some text => inr text
      | None => inl UnicodeDecodeError
      end
    end
  end.
Proof.
  unfold read_text, open_r, f_read. run.
  destruct (read_fault (fs s) path); [reflexivity |].
  destruct (files (fs s) !! path) as [bs |]; [| reflexivity].
  run. by destruct (utf8_decode bs).
Qed.

(** The three ways a write ends: [open] is refused; the text cannot be
    encoded, and the file is left empty; the bytes of the text are stored. *)
Lemma write_text_run path s :
  write_text path s =
  let s0 := set_trace (trace s ++ [Opened path mode_w]) s in
  match write_fault (fs s) path with
  | Some e => (inl e, s0)
  | None =>
    match utf8_encode (editor_text s) with
    | None =>
        (inl UnicodeEncodeError,
         set_fs (set_files (<[path := []]> (files (fs s))) (fs s)) s0)
    | Some bs =>
        (inr tt, set_fs (set_files (<[path := bs]> (files (fs s))) (fs s)) s0)
    end
  end.
Proof.
  unfold write_text, open_w, f_write. run.
  destruct (write_fault (fs s) path); [reflexivity |]. run.
  destruct (utf8_encode (editor_text s)) as [bs |]; [| reflexivity]. run.
  unfold set_files; cbn [files read_fault write_fault].
  by rewrite insert_insert_eq.
Qed.

Lemma editor_setPlainText_run text s :
  editor_setPlainText text s = emit_textChanged (set_editor_text text s).
Proof. reflexivity. Qed.

Lemma emit_textChanged_returns s : fst (emit_textChanged s) = inr tt.
Proof.
  rewrite emit_textChanged_run.
  destruct (textChanged_connected s); [| reflexivity].
  by rewrite _update_preview_run.
Qed.

Lemma _open_file_run answer s :
  _open_file answer s =
  let s0 := set_trace (trace s ++ [AskOpenFileName]) s in
  if truthy answer then
    match read_text answer s0 with
    | (inr text, s1) => opened answer text s1
    | (inl e, s1) =>
        critical (py "Error") (py "Could not open file: " ++ exn_str e) s1
    end
  else (inr tt, s0).
Proof.
  unfold _open_file. run. destruct (truthy answer); [| reflexivity].
  unfold read_text, open_r, f_read, opened. run.
  destruct (read_fault (fs s) answer); [reflexivity |].
  destruct (files (fs s) !! answer) as [bs |]; [| reflexivity]. run.
  destruct (utf8_decode bs) as [text |]; [| reflexivity].
  rewrite editor_setPlainText_run.
  match goal with
  | |- context [emit_textChanged ?x] =>
      pose proof (emit_textChanged_returns x) as R;
      destruct (emit_textChanged x) as [[e | []] s1]
  end; [discriminate | reflexivity].
Qed.

Lemma _save_logic_run path s :
  _save_logic path s =
  match write_text path s with
  | (inr _, s1) => saved path s1
  | (inl e, s1) =>
      critical (py "Error") (py "Could not save file: " ++ exn_str e) s1
  end.
Proof.
  unfold _save_logic, write_text, open_w, f_write, saved. run.
  destruct (write_fault (fs s) path); [reflexivity |]. run.
  by destruct (utf8_encode (editor_text s)).
Qed.

Lemma _save_file_as_run answer s :
  _save_file_as answer s =
  let s0 := set_trace (trace s ++ [AskSaveFileName]) s in
  if truthy answer then _save_logic answer s0 else (inr tt, s0).
Proof. unfold _save_file_as. run. by destruct (truthy answer). Qed.

Lemma _save_file_run answer s :
  _save_file answer s =
  match current_file_path s with
  | Some p => if truthy p then _save_logic p s else _save_file_as answer s
  | None => _save_file_as answer s
  end.
Proof.
  unfold _save_file. run. destruct (current_file_path s) as [p |]; [| reflexivity].
  by destruct (truthy p).
Qed.


(** ** The host's operations, seen from the handlers *)

Lemma new_events_logged s (evs : list Event) :
  new_events s (set_trace (trace s ++ evs) s) = evs.
Proof. unfold new_events. cbn [trace set_trace]. by rewrite drop_app_length. Qed.

Lemma read_text_pair path s :
  read_text path s =
  (fst (read_text path s), set_trace (trace s ++ [Opened path mode_r]) s).
Proof. rewrite <- read_text_state. by destruct (read_text path s). Qed.

Lemma read_text_trace path (t : list Event) s :
  fst (read_text path (set_trace t s)) = fst (read_text path s).
Proof. by rewrite !read_text_result. Qed.

Lemma write_text_trace path (t : list Event) s :
  fst (write_text path (set_trace t s)) = fst (write_text path s).
Proof.
  rewrite !write_text_run. cbn [set_trace fs editor_text].
  destruct (write_fault (fs s) path); [reflexivity |].
  by destruct (utf8_encode (editor_text s)).
Qed.

(** Opening a path that does not exist raises. *)
Lemma missing_file_raises path s :
  read_fault (fs s) path = None ->
  files (fs s) !! path = None ->
  raises (read_text path) s (FileNotFoundError path).
Proof. intros Hf Hm. unfold raises. by rewrite read_text_result, Hf, Hm. Qed.

Lemma refused_write_raises path s e :
  write_fault (fs s) path = Some e -> raises (write_text path) s e.
Proof. intros Hf. unfold raises. by rewrite write_text_run, Hf. Qed.

Lemma _update_window_title_named s p :
  current_file_path s = Some p -> truthy p = true ->
  exec _update_window_title s =
  set_windowTitle (p ++ py " - " ++ window_title (config s)) s.
Proof.
  intros Hp Ht. unfold exec. by rewrite _update_window_title_run, Hp, Ht.
Qed.

(** ** The invariant of the running application *)

Lemma in_sync_iff s :
  in_sync s <-> preview_html s = styled_html (current_theme s) (fragment s).
Proof. unfold in_sync, exec. rewrite _update_preview_run. by run. Qed.

Lemma _create_themes_fixed s s' :
  light_theme (exec _create_themes s) = light_theme (exec _create_themes s') /\
  dark_theme (exec _create_themes s) = dark_theme (exec _create_themes s').
Proof. by unfold _create_themes; run. Qed.

Lemma themes_built_eq s s' :
  light_theme s' = light_theme s -> dark_theme s' = dark_theme s ->
  themes_built s -> themes_built s'.
Proof.
  intros Hl Hd [Bl Bd]. destruct (_create_themes_fixed s s') as [Fl Fd].
  split; congruence.
Qed.

Lemma current_theme_eq s s' :
  is_dark_mode s' = is_dark_mode s ->
  light_theme s' = light_theme s -> dark_theme s' = dark_theme s ->
  current_theme s' = current_theme s.
Proof. unfold current_theme. by intros -> -> ->. Qed.

Lemma settled_frame s s' :
  view_unchanged s s' -> path_unset_or_named s' -> settled s -> settled s'.
Proof.
  intros (Hd & Hm & Hl & Hk & He & Hc & Hp & Ha & Hs) Hpath
         (Sc & Sb & Ss & Sa & _ & Sy).
  pose proof (current_theme_eq s s' Hd Hl Hk) as Ht.
  repeat split; try congruence.
  - by destruct (themes_built_eq s s' Hl Hk Sb).
  - by destruct (themes_built_eq s s' Hl Hk Sb).
  - apply in_sync_iff. apply in_sync_iff in Sy.
    unfold fragment. rewrite Hp, Ht, Hm, He. exact Sy.
Qed.

(** Rendering brings the preview up to date. *)
Lemma _update_preview_settles s :
  converter_forgets ->
  textChanged_connected s = true ->
  themes_built s ->
  styleSheet s = app_stylesheet (current_theme s) ->
  dark_mode_checked s = is_dark_mode s ->
  path_unset_or_named s ->
  settled (exec _update_preview s).
Proof.
  intros R Hc Hb Hs Ha Hp. unfold exec. rewrite _update_preview_run. run.
  repeat split; try assumption.
  - by destruct (themes_built_eq s
      (set_preview_html (styled_html (current_theme s) (fragment s))
         (set_markdown_converter
            (snd (Markdown_convert (markdown_converter s) (editor_text s))) s))
      eq_refl eq_refl Hb).
  - by destruct (themes_built_eq s
      (set_preview_html (styled_html (current_theme s) (fragment s))
         (set_markdown_converter
            (snd (Markdown_convert (markdown_converter s) (editor_text s))) s))
      eq_refl eq_refl Hb).
  - apply in_sync_iff. run. unfold fragment, current_theme. run.
    f_equal. symmetry. apply R.
Qed.

Lemma view_unchanged_refl s : view_unchanged s s.
Proof. by repeat split. Qed.

Lemma view_unchanged_trans s1 s2 s3 :
  view_unchanged s1 s2 -> view_unchanged s2 s3 -> view_unchanged s1 s3.
Proof. unfold view_unchanged. intuition congruence. Qed.

Lemma _update_window_title_frame s :
  view_unchanged s (exec _update_window_title s) /\
  current_file_path (exec _update_window_title s) = current_file_path s /\
  fs (exec _update_window_title s) = fs s /\
  trace (exec _update_window_title s) = trace s.
Proof. unfold exec. rewrite _update_window_title_run. by repeat split. Qed.

Lemma exec_bind_unit {B} (m : M unit) (k : M B) s :
  fst (m s) = inr tt -> exec (m ;; k) s = exec k (exec m s).
Proof. unfold exec, bind. by destruct (m s) as [[e | []] s']. Qed.

Lemma _update_preview_returns s : fst (_update_preview s) = inr tt.
Proof. by rewrite _update_preview_run. Qed.

Lemma _apply_theme_returns s : fst (_apply_theme s) = inr tt.
Proof. rewrite _apply_theme_run. apply _update_preview_returns. Qed.

Lemma editor_setPlainText_returns text s :
  fst (editor_setPlainText text s) = inr tt.
Proof. rewrite editor_setPlainText_run. apply emit_textChanged_returns. Qed.

Lemma _apply_theme_settles s :
  converter_forgets ->
  textChanged_connected s = true ->
  themes_built s ->
  dark_mode_checked s = is_dark_mode s ->
  path_unset_or_named s ->
  settled (exec _apply_theme s).
Proof.
  intros R Hc Hb Ha Hp. unfold exec. rewrite _apply_theme_run.
  apply _update_preview_settles;
    first [assumption | reflexivity | by apply (themes_built_eq s)].
Qed.

Lemma editor_setPlainText_settles text s :
  converter_forgets -> settled s -> settled (exec (editor_setPlainText text) s).
Proof.
  intros R (Hc & Hb & Hs & Ha & Hp & _). unfold exec.
  rewrite editor_setPlainText_run, emit_textChanged_run.
  cbn [textChanged_connected set_editor_text]. rewrite Hc.
  apply _update_preview_settles;
    first [assumption | reflexivity | by apply (themes_built_eq s)].
Qed.

(** [__init__] runs the set-up, applies the theme, puts the placeholder in
    the editor and sets the title. *)
Lemma launched_shape cfg w :
  exists s0,
    launched cfg w =
      exec _update_window_title
        (exec (editor_setPlainText placeholder) (exec _apply_theme s0)) /\
    textChanged_connected s0 = true /\
    themes_built s0 /\
    dark_mode_checked s0 = is_dark_mode s0 /\
    is_dark_mode s0 = true /\
    current_file_path s0 = None /\
    config s0 = cfg /\
    fs s0 = w /\
    trace s0 = [].
Proof.
  unfold launched, __init__.
  do 8 (rewrite exec_bind_unit by reflexivity).
  rewrite exec_bind_unit by apply _apply_theme_returns.
  rewrite exec_bind_unit by apply editor_setPlainText_returns.
  eexists. split; [reflexivity |].
  unfold _setup_menu, _setup_ui, _setup_window, _create_themes, themes_built,
    boot.
  run. by repeat split.
Qed.

Lemma launched_settled cfg w : converter_forgets -> settled (launched cfg w).
Proof.
  intros R. destruct (launched_shape cfg w)
    as (s0 & -> & Hc & Hb & Ha & _ & Hp & _).
  assert (settled (exec (editor_setPlainText placeholder) (exec _apply_theme s0)))
    as S.
  { apply editor_setPlainText_settles, _apply_theme_settles; try assumption.
    by left. }
  destruct (_update_window_title_frame
    (exec (editor_setPlainText placeholder) (exec _apply_theme s0)))
    as (V & P & _).
  apply (settled_frame _ _ V); [| exact S].
  unfold path_unset_or_named. rewrite P. by destruct S as (_ & _ & _ & _ & ? & _).
Qed.

Lemma write_text_frame path s :
  view_unchanged s (exec (write_text path) s) /\
  current_file_path (exec (write_text path) s) = current_file_path s /\
  windowTitle (exec (write_text path) s) = windowTitle s /\
  config (exec (write_text path) s) = config s.
Proof.
  unfold exec. rewrite write_text_run. cbn zeta.
  destruct (write_fault (fs s) path); [by repeat split |].
  destruct (utf8_encode (editor_text s)); by repeat split.
Qed.

Lemma saved_run path s :
  exec (saved path) s =
  exec _update_window_title (set_current_file_path (Some path) s).
Proof. reflexivity. Qed.

Lemma opened_run path text s :
  exec (opened path text) s =
  exec _update_window_title
    (set_current_file_path (Some path) (exec (editor_setPlainText text) s)).
Proof.
  unfold opened. rewrite exec_bind_unit by apply editor_setPlainText_returns.
  reflexivity.
Qed.

Lemma _save_logic_exec path s :
  exec (_save_logic path) s =
  match fst (write_text path s) with
  | inr _ => exec (saved path) (exec (write_text path) s)
  | inl e =>
      exec (critical (py "Error") (py "Could not save file: " ++ exn_str e))
        (exec (write_text path) s)
  end.
Proof.
  unfold exec at 1. rewrite _save_logic_run. unfold exec.
  by destruct (write_text path s) as [[e | []] s1].
Qed.

Lemma _save_logic_frame path s :
  view_unchanged s (exec (_save_logic path) s) /\
  (current_file_path (exec (_save_logic path) s) = current_file_path s \/
   current_file_path (exec (_save_logic path) s) = Some path).
Proof.
  rewrite _save_logic_exec.
  destruct (write_text_frame path s) as (V & P & _).
  destruct (fst (write_text path s)) as [e | []].
  - split; [| by left].
    apply (view_unchanged_trans _ _ _ V). by repeat split.
  - rewrite saved_run.
    destruct (_update_window_title_frame
      (set_current_file_path (Some path) (exec (write_text path) s)))
      as (V' & P' & _).
    split; [| by right].
    apply (view_unchanged_trans _ _ _ V).
    refine (view_unchanged_trans _ _ _ _ V'). by repeat split.
Qed.

Lemma _save_file_as_exec answer s :
  exec (_save_file_as answer) s =
  if truthy answer
  then exec (_save_logic answer) (set_trace (trace s ++ [AskSaveFileName]) s)
  else set_trace (trace s ++ [AskSaveFileName]) s.
Proof.
  unfold exec. rewrite _save_file_as_run. cbn zeta. by destruct (truthy answer).
Qed.

Lemma _open_file_exec answer s :
  exec (_open_file answer) s =
  let s0 := set_trace (trace s ++ [AskOpenFileName]) s in
  let s1 := set_trace (trace s0 ++ [Opened answer mode_r]) s0 in
  if truthy answer then
    match fst (read_text answer s) with
    | inr text => exec (opened answer text) s1
    | inl e =>
        exec (critical (py "Error") (py "Could not open file: " ++ exn_str e)) s1
    end
  else s0.
Proof.
  unfold exec at 1. rewrite _open_file_run. cbn zeta.
  destruct (truthy answer); [| reflexivity].
  rewrite read_text_pair, read_text_trace.
  by destruct (fst (read_text answer s)).
Qed.

Lemma settled_step a s : converter_forgets -> settled s -> settled (step a s).
Proof.
  intros R S. unfold step. destruct a as [text | | answer | answer | answer];
    cbn [handle].
  - apply (editor_setPlainText_settles text s R S).
  - destruct S as (Hc & Hb & Hs & Ha & Hp & _).
    unfold exec. rewrite _toggle_dark_mode_run.
    apply _apply_theme_settles;
      first [assumption | reflexivity | by apply (themes_built_eq s)].
  - rewrite _open_file_exec. cbn zeta.
    assert (forall t, settled (set_trace t s)) as St.
    { intros t. apply (settled_frame s); [by repeat split | | exact S].
      by destruct S as (_ & _ & _ & _ & ? & _). }
    destruct (truthy answer) eqn:Ht; [| apply St].
    destruct (fst (read_text answer s)) as [e | text].
    + apply (settled_frame s); [by repeat split | | exact S].
      by destruct S as (_ & _ & _ & _ & ? & _).
    + rewrite opened_run.
      match goal with
      | |- settled (exec _update_window_title (set_current_file_path _ ?x)) =>
          assert (settled x) as Sx
            by (apply editor_setPlainText_settles; [exact R | apply St]);
          destruct (_update_window_title_frame
                      (set_current_file_path (Some answer) x)) as (V & P & _);
          apply (settled_frame x);
            [ apply (view_unchanged_trans _ (set_current_file_path (Some answer) x));
                [by repeat split | exact V]
            | right; exists answer; by rewrite P
            | exact Sx ]
      end.
  - unfold exec. rewrite _save_file_run. fold (exec (_save_file_as answer) s).
    assert (settled (exec (_save_file_as answer) s)) as Sas.
    { rewrite _save_file_as_exec.
      assert (settled (set_trace (trace s ++ [AskSaveFileName]) s)) as St.
      { apply (settled_frame s); [by repeat split | | exact S].
        by destruct S as (_ & _ & _ & _ & ? & _). }
      destruct (truthy answer) eqn:Ht; [| exact St].
      destruct (_save_logic_frame answer
                  (set_trace (trace s ++ [AskSaveFileName]) s)) as (V & P).
      apply (settled_frame _ _ V); [| exact St].
      unfold path_unset_or_named.
      destruct P as [-> | ->]; [by destruct St as (_ & _ & _ & _ & ? & _) |].
      right; by exists answer. }
    destruct (current_file_path s) as [p |] eqn:Hp; [| exact Sas].
    destruct (truthy p) eqn:Ht; [| exact Sas].
    fold (exec (_save_logic p) s).
    destruct (_save_logic_frame p s) as (V & P).
    apply (settled_frame _ _ V); [| exact S].
    right; exists p. destruct P as [-> | ->]; by rewrite ?Hp.
  - rewrite _save_file_as_exec.
    assert (settled (set_trace (trace s ++ [AskSaveFileName]) s)) as St.
    { apply (settled_frame s); [by repeat split | | exact S].
      by destruct S as (_ & _ & _ & _ & ? & _). }
    destruct (truthy answer) eqn:Ht; [| exact St].
    destruct (_save_logic_frame answer
                (set_trace (trace s ++ [AskSaveFileName]) s)) as (V & P).
    apply (settled_frame _ _ V); [| exact St].
    unfold path_unset_or_named.
    destruct P as [-> | ->]; [by destruct St as (_ & _ & _ & _ & ? & _) |].
    right; by exists answer.
Qed.

Lemma reachable_settled s : converter_forgets -> reachable s -> settled s.
Proof.
  intros R. induction 1 as [cfg w | a s _ IH].
  - by apply launched_settled.
  - by apply settled_step.
Qed.

(** ** What a handler leaves behind *)

Lemma new_events_app s s' (l : list Event) :
  trace s' = trace s ++ l -> new_events s s' = l.
Proof. unfold new_events. intros ->. by rewrite drop_app_length. Qed.

Lemma _update_preview_frame s :
  let s' := exec _update_preview s in
  config s' = config s /\ current_file_path s' = current_file_path s /\
  is_dark_mode s' = is_dark_mode s /\ editor_text s' = editor_text s /\
  styleSheet s' = styleSheet s /\ windowTitle s' = windowTitle s /\
  fs s' = fs s /\ trace s' = trace s /\
  light_theme s' = light_theme s /\ dark_theme s' = dark_theme s.
Proof. cbn zeta. unfold exec. rewrite _update_preview_run. by repeat split. Qed.

Lemma editor_setPlainText_frame text s :
  let s' := exec (editor_setPlainText text) s in
  config s' = config s /\ current_file_path s' = current_file_path s /\
  is_dark_mode s' = is_dark_mode s /\ editor_text s' = text /\
  styleSheet s' = styleSheet s /\ windowTitle s' = windowTitle s /\
  fs s' = fs s /\ trace s' = trace s /\
  light_theme s' = light_theme s /\ dark_theme s' = dark_theme s.
Proof.
  cbn zeta. unfold exec.
  rewrite editor_setPlainText_run, emit_textChanged_run.
  destruct (textChanged_connected _); [| by repeat split].
  apply (_update_preview_frame (set_editor_text text s)).
Qed.

Lemma _toggle_dark_mode_frame s :
  let s' := exec _toggle_dark_mode s in
  config s' = config s /\ current_file_path s' = current_file_path s /\
  is_dark_mode s' = negb (is_dark_mode s) /\ editor_text s' = editor_text s /\
  windowTitle s' = windowTitle s /\ fs s' = fs s /\ trace s' = trace s /\
  light_theme s' = light_theme s /\ dark_theme s' = dark_theme s.
Proof.
  cbn zeta. unfold exec. rewrite _toggle_dark_mode_run, _apply_theme_run.
  match goal with
  | |- context [_update_preview ?x] =>
      destruct (_update_preview_frame x)
        as (? & ? & ? & ? & _ & ? & ? & ? & ? & ?)
  end.
  by repeat split.
Qed.

(** The state after [_save_logic], by the outcome of the write. *)
Lemma _save_logic_outcome path s :
  truthy path = true ->
  let s' := exec (_save_logic path) s in
  match fst (write_text path s) with
  | inl e =>
      trace s' =
        trace s ++ [Opened path mode_w;
                    Critical (py "Error") (py "Could not save file: " ++ exn_str e)] /\
      current_file_path s' = current_file_path s /\
      windowTitle s' = windowTitle s
  | inr _ =>
      trace s' = trace s ++ [Opened path mode_w] /\
      files (fs s') !! path = utf8_encode (editor_text s) /\
      current_file_path s' = Some path /\
      windowTitle s' = path ++ py " - " ++ window_title (config s)
  end.
Proof.
  intros Ht. cbn zeta. unfold exec. rewrite _save_logic_run, write_text_run.
  cbn zeta.
  destruct (write_fault (fs s) path) as [e |].
  { unfold critical; run. by rewrite <- app_assoc. }
  destruct (utf8_encode (editor_text s)) as [bs |].
  - unfold saved. run. rewrite _update_window_title_run. run.
    rewrite Ht. unfold set_files; cbn [files].
    by rewrite lookup_insert_eq.
  - unfold critical; run. by rewrite <- app_assoc.
Qed.

Lemma _save_logic_write_first path s :
  truthy path = true -> write_first [] path s (exec (_save_logic path) s).
Proof.
  intros Ht. pose proof (_save_logic_outcome path s Ht) as O. cbn zeta in O.
  split.
  - intros e He. unfold raises in He. rewrite He in O.
    destruct O as (T & P & W). by rewrite (new_events_app _ _ _ T).
  - intros [[] Hr]. rewrite Hr in O.
    destruct O as (T & F & P & W). by rewrite (new_events_app _ _ _ T).
Qed.

Lemma _save_file_as_write_first path s :
  truthy path = true ->
  write_first [AskSaveFileName] path s (exec (_save_file_as path) s).
Proof.
  intros Ht. rewrite _save_file_as_exec, Ht.
  pose proof (_save_logic_outcome path
                (set_trace (trace s ++ [AskSaveFileName]) s) Ht) as O.
  cbn zeta in O. rewrite write_text_trace in O.
  cbn [trace set_trace current_file_path windowTitle editor_text config] in O.
  split.
  - intros e He. unfold raises in He. rewrite He in O.
    destruct O as (T & P & W). rewrite <- app_assoc in T.
    by rewrite (new_events_app _ _ _ T).
  - intros [[] Hr]. rewrite Hr in O.
    destruct O as (T & F & P & W). rewrite <- app_assoc in T.
    by rewrite (new_events_app _ _ _ T).
Qed.

(** No handler lets an exception escape. *)
Lemma handle_returns a s : fst (handle a s) = inr tt.
Proof.
  assert (forall path s, fst (_save_logic path s) = inr tt) as Hsl.
  { intros path s'. rewrite _save_logic_run.
    by destruct (write_text path s') as [[e | []] s1]. }
  assert (forall answer s, fst (_save_file_as answer s) = inr tt) as Hsa.
  { intros answer s'. rewrite _save_file_as_run. cbn zeta.
    destruct (truthy answer); [apply Hsl | reflexivity]. }
  destruct a as [text | | answer | answer | answer]; cbn [handle].
  - apply (editor_setPlainText_returns text s).
  - rewrite _toggle_dark_mode_run. apply _apply_theme_returns.
  - rewrite _open_file_run. cbn zeta.
    destruct (truthy answer); [| reflexivity].
    destruct (read_text answer _) as [[e | text] s1]; [reflexivity |].
    unfold opened, bind.
    pose proof (editor_setPlainText_returns text s1) as R.
    by destruct (editor_setPlainText text s1) as [[e | []] s2].
  - rewrite _save_file_run. destruct (current_file_path s) as [p |]; [| apply Hsa].
    destruct (truthy p); [apply Hsl | apply Hsa].
  - apply Hsa.
Qed.

(** ** The current path *)

Lemma path_step a s : path_unset_or_named s -> path_unset_or_named (step a s).
Proof.
  intros Hp. unfold step, path_unset_or_named.
  destruct a as [text | | answer | answer | answer]; cbn [handle].
  - change (modify (set_editor_text text) ;; emit_textChanged)
      with (editor_setPlainText text).
    by destruct (editor_setPlainText_frame text s) as (_ & -> & _).
  - by destruct (_toggle_dark_mode_frame s) as (_ & -> & _).
  - rewrite _open_file_exec. cbn zeta.
    destruct (truthy answer) eqn:Ht; [| exact Hp].
    destruct (fst (read_text answer s)) as [e | text]; [exact Hp |].
    rewrite opened_run.
    match goal with
    | |- context [exec _update_window_title ?x] =>
        destruct (_update_window_title_frame x) as (_ & -> & _)
    end.
    right. by exists answer.
  - assert (path_unset_or_named (exec (_save_file_as answer) s)) as Has.
    { unfold path_unset_or_named. rewrite _save_file_as_exec.
      destruct (truthy answer) eqn:Ht; [| exact Hp].
      destruct (_save_logic_frame answer
                  (set_trace (trace s ++ [AskSaveFileName]) s)) as (_ & [-> | ->]);
        [exact Hp | right; by exists answer]. }
    unfold exec. rewrite _save_file_run.
    destruct (current_file_path s) as [p |] eqn:Hc; [| exact Has].
    destruct (truthy p) eqn:Ht; [| exact Has].
    destruct (_save_logic_frame p s) as (_ & [P | P]);
      unfold exec in P; rewrite P; right; exists p; by rewrite ?Hc.
  - rewrite _save_file_as_exec.
    destruct (truthy answer) eqn:Ht; [| exact Hp].
    destruct (_save_logic_frame answer
                (set_trace (trace s ++ [AskSaveFileName]) s)) as (_ & [-> | ->]);
      [exact Hp | right; by exists answer].
Qed.

Lemma launched_path cfg w : current_file_path (launched cfg w) = None.
Proof.
  destruct (launched_shape cfg w) as (s0 & -> & _ & _ & _ & _ & Hp & _).
  match goal with
  | |- context [exec _update_window_title ?x] =>
      destruct (_update_window_title_frame x) as (_ & -> & _)
  end.
  destruct (editor_setPlainText_frame placeholder (exec _apply_theme s0))
    as (_ & -> & _).
  unfold exec. rewrite _apply_theme_run.
  match goal with
  | |- context [_update_preview ?x] =>
      destruct (_update_preview_frame x) as (_ & P & _)
  end.
  unfold exec in P. by rewrite P.
Qed.

Lemma reachable_path s : reachable s -> path_unset_or_named s.
Proof.
  induction 1 as [cfg w | a s _ IH].
  - left. apply launched_path.
  - by apply path_step.
Qed.

(** ** The file controller *)

(** C9 - [_update_window_title] sets the window title to the current path,
    [" - "] and the configured title when a path is set, and to the
    configured title alone when none is set; in every state the
    application reaches, the path is unset or a non-empty string, so these
    are all the cases. *)
Theorem window_title_format s :
  (forall p, current_file_path s = Some p -> truthy p = true ->
     windowTitle (exec _update_window_title s) =
       p ++ py " - " ++ window_title (config s)) /\
  (current_file_path s = None ->
     windowTitle (exec _update_window_title s) = window_title (config s)) /\
  (reachable s -> path_unset_or_named s).
Proof.
  unfold exec. rewrite _update_window_title_run. cbn [snd windowTitle set_windowTitle].
  split; [| split].
  - by intros p -> ->.
  - by intros ->.
  - apply reachable_path.
Qed.

(** C10 - Cancelling the open dialog or the save-as dialog (the dialog
    returns the empty path) does nothing: the handler returns, no file is
    opened for reading or for writing, and the state is the one before with
    the dialog added to the trace, so that the editor's text, the current
    path, the window title, the preview and the file system are
    unchanged. *)
Theorem cancelled_dialog_is_noop s :
  let s1 := exec (_open_file []) s in
  let s2 := exec (_save_file_as []) s in
  (returns (_open_file []) s /\ returns (_save_file_as []) s) /\
  (s1 = set_trace (trace s ++ [AskOpenFileName]) s /\
   s2 = set_trace (trace s ++ [AskSaveFileName]) s) /\
  (new_events s s1 = [AskOpenFileName] /\
   new_events s s2 = [AskSaveFileName]) /\
  (same_interface s s1 /\ same_interface s s2).
Proof.
  cbn zeta. rewrite _open_file_exec, _save_file_as_exec. cbn [truthy]. cbn zeta.
  split; [| split; [| split]].
  - split; exists tt.
    + apply (handle_returns (OpenFile [])).
    + apply (handle_returns (SaveFileAs [])).
  - by split.
  - by rewrite !new_events_logged.
  - by repeat split.
Qed.

(** C4 - When reading the chosen path raises (the path does not exist, the
    host refuses it, its bytes are not UTF-8), [_open_file] returns without
    an exception, shows the error dialog with the message, and leaves the
    state as it was, the trace apart: the current path keeps its value,
    [None] included, and the editor's text is not modified. *)
Theorem open_failure_keeps_state s path e :
  truthy path = true ->
  raises (read_text path) s e ->
  let s' := exec (_open_file path) s in
  returns (_open_file path) s /\
  s' = set_trace
         (trace s ++
          [AskOpenFileName; Opened path mode_r;
           Critical (py "Error") (py "Could not open file: " ++ exn_str e)]) s /\
  current_file_path s' = current_file_path s /\
  editor_text s' = editor_text s /\
  same_interface s s'.
Proof.
  intros Ht He. cbn zeta. rewrite _open_file_exec, Ht. cbn zeta.
  unfold raises in He. rewrite He.
  split; [exists tt; apply (handle_returns (OpenFile path)) |].
  unfold critical, log, exec, modify.
  cbn [snd trace set_trace current_file_path editor_text].
  rewrite <- !app_assoc. cbn [app].
  by repeat split.
Qed.

(** C3 - [_save_logic], and [_save_file_as] through it, write first: for
    every target path the file is opened for writing before anything else;
    when the write raises, the error dialog follows and the current path
    and the window title are those from before the save; when it does not
    raise, the file holds the encoded text and the path and the title are
    updated. *)
Theorem save_is_write_first s path :
  truthy path = true ->
  write_first [] path s (exec (_save_logic path) s) /\
  write_first [AskSaveFileName] path s (exec (_save_file_as path) s).
Proof.
  intros Ht. split.
  - by apply _save_logic_write_first.
  - by apply _save_file_as_write_first.
Qed.

(** C8 - [_save_file] with a current path set runs the save logic on that
    path: it shows no dialog (the result does not depend on what the user
    would answer, and no dialog is in the trace), opens the path for
    writing and, when the write is not refused and the text can be encoded,
    leaves the UTF-8 bytes of the editor's text in the file.  With no
    current path it is [_save_file_as], and does nothing else. *)
Theorem save_file_dispatch s answer :
  (forall p, current_file_path s = Some p -> truthy p = true ->
     let s' := exec (_save_file answer) s in
     _save_file answer s = _save_logic p s /\
     ~ In AskSaveFileName (new_events s s') /\
     In (Opened p mode_w) (new_events s s') /\
     (returns (write_text p) s ->
        files (fs s') !! p = utf8_encode (editor_text s))) /\
  (current_file_path s = None ->
     _save_file answer s = _save_file_as answer s).
Proof.
  split.
  - intros p Hp Ht. cbn zeta. unfold exec. rewrite _save_file_run, Hp, Ht.
    fold (exec (_save_logic p) s).
    destruct (_save_logic_write_first p s Ht) as [Hf Hr].
    split; [reflexivity |].
    destruct (fst (write_text p s)) as [e | []] eqn:Hw.
    + destruct (Hf e Hw) as (-> & _). cbn [app In].
      repeat split; [intros [? | [? | []]]; discriminate | by left |].
      intros [x Hx]. rewrite Hx in Hw. discriminate.
    + destruct (Hr (ex_intro _ tt Hw)) as (-> & F & _). cbn [app In].
      repeat split; [intros [? | []]; discriminate | by left | done].
  - intros Hp. by rewrite _save_file_run, Hp.
Qed.

(** ** The preview renderer *)

Lemma starts_with_spec (p l : pystr) :
  starts_with p l = true <-> exists post, l = p ++ post.
Proof.
  revert l. induction p as [| a p IH]; intros l; cbn [starts_with].
  - split; [by exists l | done].
  - destruct l as [| b l].
    + split; [done | by intros [post ?]].
    + rewrite andb_true_iff, N.eqb_eq, IH. split.
      * intros [-> [post ->]]. by exists post.
      * intros [post [= -> ->]]. split; [done | by exists post].
Qed.

Lemma occursb_spec (needle hay : pystr) :
  occursb needle hay = true <-> occurs needle hay.
Proof.
  unfold occurs. induction hay as [| b hay IH]; cbn [occursb].
  - rewrite orb_false_r, starts_with_spec. split.
    + intros [post ->]. by exists [], post.
    + intros (pre & post & H). symmetry in H.
      apply app_eq_nil in H as [-> H]. by exists post.
  - rewrite orb_true_iff, starts_with_spec, IH. split.
    + intros [[post ->] | (pre & post & ->)].
      * by exists [], post.
      * by exists (b :: pre), post.
    + intros ([| a pre] & post & H).
      * left. by exists post.
      * right. injection H as -> ->. by exists pre, post.
Qed.

Lemma shared_rules_in_head : Forall (fun rule => occurs rule doc_shared) shared_rules.
Proof.
  unfold shared_rules.
  repeat (apply Forall_cons; split;
          [apply occursb_spec; vm_compute; reflexivity |]).
  apply Forall_nil_2.
Qed.

(** Whatever calls were made on the object in between, it converts a text
    as it did before them. *)
Lemma used_from_convert (m m' : Markdown) text :
  converter_forgets ->
  used_from m m' ->
  fst (Markdown_convert m' text) = fst (Markdown_convert m text).
Proof.
  intros R. induction 1 as [| m' before _ IH]; [reflexivity |].
  by rewrite R.
Qed.

Lemma _update_preview_converter s :
  markdown_converter (exec _update_preview s) =
  snd (Markdown_convert (markdown_converter s) (editor_text s)).
Proof. unfold exec. by rewrite _update_preview_run. Qed.

(** Every event uses the one converter object of the window. *)
Lemma step_used_from a s :
  used_from (markdown_converter s) (markdown_converter (step a s)).
Proof.
  assert (forall x, used_from (markdown_converter x)
                      (markdown_converter (exec _update_preview x))) as U.
  { intros x. rewrite _update_preview_converter. apply used_call, used_now. }
  assert (forall text x, used_from (markdown_converter x)
            (markdown_converter (exec (editor_setPlainText text) x))) as E.
  { intros text x. unfold exec.
    rewrite editor_setPlainText_run, emit_textChanged_run.
    cbn [textChanged_connected set_editor_text].
    destruct (textChanged_connected x); [| apply used_now].
    apply (U (set_editor_text text x)). }
  assert (forall path x, markdown_converter (exec (_save_logic path) x) =
                         markdown_converter x) as L1.
  { intros path x. by destruct (_save_logic_frame path x) as ((_ & ? & _) & _). }
  assert (forall answer x, markdown_converter (exec (_save_file_as answer) x) =
                           markdown_converter x) as L2.
  { intros answer x. rewrite _save_file_as_exec.
    destruct (truthy answer); [| reflexivity]. by rewrite L1. }
  unfold step. destruct a as [text | | answer | answer | answer]; cbn [handle].
  - apply (E text s).
  - unfold exec. rewrite _toggle_dark_mode_run, _apply_theme_run.
    match goal with
    | |- context [_update_preview ?x] => apply (U x)
    end.
  - rewrite _open_file_exec. cbn zeta.
    destruct (truthy answer); [| apply used_now].
    destruct (fst (read_text answer s)) as [e | text]; [apply used_now |].
    rewrite opened_run.
    match goal with
    | |- context [exec _update_window_title ?x] =>
        destruct (_update_window_title_frame x) as ((_ & -> & _) & _)
    end.
    cbn [markdown_converter set_current_file_path].
    match goal with
    | |- context [exec (editor_setPlainText text) ?x] => apply (E text x)
    end.
  - assert (markdown_converter (exec (_save_file answer) s) =
            markdown_converter s) as ->; [| apply used_now].
    unfold exec. rewrite _save_file_run.
    destruct (current_file_path s) as [p |]; [| apply L2].
    destruct (truthy p); [apply L1 | apply L2].
  - rewrite L2. apply used_now.
Qed.

Lemma used_from_trans (m1 m2 m3 : Markdown) :
  used_from m1 m2 -> used_from m2 m3 -> used_from m1 m3.
Proof. intros H12. induction 1; [exact H12 | by constructor]. Qed.



(** C2, as the code has it - The render puts the converter's fragment and
    two of the theme's three style strings, the syntax rules and the
    document rules, into the fixed template: the shared rules come first,
    then the syntax rules, the document rules, and the fragment in the
    body.  The chrome style sheet plays no part in the document: it is
    what [_apply_theme] sets on the window. *)
Theorem preview_document_layout s :
  let theme := current_theme s in
  preview_html (exec _update_preview s) =
    doc_shared ++ pygments_css theme ++ doc_between_css ++ html_css theme
    ++ doc_before_body ++ fragment s ++ doc_after_body /\
  Forall (fun rule => occurs rule doc_shared) shared_rules /\
  (forall css html,
     styled_html (with_chrome css theme) html = styled_html theme html) /\
  styleSheet (exec _apply_theme s) = app_stylesheet theme.
Proof.
  cbn zeta. split; [| split; [| split]].
  - unfold exec. by rewrite _update_preview_run.
  - apply shared_rules_in_head.
  - reflexivity.
  - unfold exec. rewrite _apply_theme_run.
    match goal with
    | |- context [_update_preview ?x] =>
        destruct (_update_preview_frame x) as (_ & _ & _ & _ & P & _)
    end.
    unfold exec in P. by rewrite P.
Qed.

(** ** The theme *)

Lemma stylesheets_differ : light_app_stylesheet <> dark_app_stylesheet.
Proof.
  intros H. apply (f_equal (fun l : pystr => l !! 27%nat)) in H.
  vm_compute in H. discriminate.
Qed.

Lemma themes_built_chrome s :
  themes_built s ->
  app_stylesheet (light_theme s) = light_app_stylesheet /\
  app_stylesheet (dark_theme s) = dark_app_stylesheet.
Proof. intros [-> ->]. by unfold _create_themes; run. Qed.

Lemma settled_one_theme_active s : settled s -> one_theme_active s.
Proof.
  intros (_ & Hb & Hs & _ & _ & Hy). apply in_sync_iff in Hy.
  destruct (themes_built_chrome s Hb) as [Hl Hd].
  unfold one_theme_active, active. unfold current_theme in Hs, Hy.
  destruct (is_dark_mode s).
  - left. split; [done |]. intros [Hc _].
    apply stylesheets_differ. congruence.
  - right. split; [done |]. intros [Hc _].
    apply stylesheets_differ. congruence.
Qed.

(** C7 - Between events the preview is never stale and one theme is
    active.  When a call of the converter does not depend on the calls
    made before on the same object: the
    state in which the window is shown is settled; every event (an edit, a
    toggle of the theme, an open, which sets the text from the program, a
    save) leads from a settled state to a settled state; and in a settled
    state the preview is the render of the editor's text with the theme in
    use, and exactly one of the light and the dark theme is active. *)
Theorem preview_never_stale :
  converter_forgets ->
  (forall cfg w, settled (launched cfg w)) /\
  (forall a s, settled s -> settled (step a s)) /\
  (forall s, settled s ->
     preview_html s = styled_html (current_theme s) (fragment s) /\
     in_sync s /\
     one_theme_active s).
Proof.
  intros R. split; [| split].
  - intros cfg w. by apply launched_settled.
  - intros a s. by apply settled_step.
  - intros s S. split; [| split].
    + apply in_sync_iff. by destruct S as (_ & _ & _ & _ & _ & ?).
    + by destruct S as (_ & _ & _ & _ & _ & ?).
    + by apply settled_one_theme_active.
Qed.

(** C5 - Toggling dark mode twice is the identity on what the theme
    shows: in every state the application reaches, when a call of the
    converter does not depend on the calls made before on the same
    object, after two toggles in a row the style sheet of the window, the
    preview document and the dark-mode flag are those from before the
    first. *)
Theorem toggle_twice_restores s :
  converter_forgets ->
  reachable s ->
  let s' := exec (_toggle_dark_mode ;; _toggle_dark_mode) s in
  styleSheet s' = styleSheet s /\
  preview_html s' = preview_html s /\
  is_dark_mode s' = is_dark_mode s.
Proof.
  intros R Hr. cbn zeta.
  rewrite exec_bind_unit by apply (handle_returns ToggleDarkMode).
  pose proof (reachable_settled s R Hr) as S.
  pose proof (settled_step ToggleDarkMode _ R (settled_step ToggleDarkMode s R S))
    as S2.
  unfold step in S2; cbn [handle] in S2.
  destruct (_toggle_dark_mode_frame s)
    as (_ & _ & D1 & E1 & _ & _ & _ & L1 & K1).
  destruct (_toggle_dark_mode_frame (exec _toggle_dark_mode s))
    as (_ & _ & D2 & E2 & _ & _ & _ & L2 & K2).
  cbn zeta in *.
  set (s2 := exec _toggle_dark_mode (exec _toggle_dark_mode s)) in *.
  assert (is_dark_mode s2 = is_dark_mode s) as D
    by (rewrite D2, D1; apply negb_involutive).
  assert (current_theme s2 = current_theme s) as T
    by (apply current_theme_eq; congruence).
  destruct S as (_ & _ & Hs & _ & _ & Hy).
  destruct S2 as (_ & _ & Hs2 & _ & _ & Hy2).
  apply in_sync_iff in Hy, Hy2.
  split; [congruence | split; [| exact D]].
  rewrite Hy, Hy2, T. f_equal.
  unfold fragment. rewrite E2, E1.
  apply used_from_convert; [exact R |].
  exact (used_from_trans _ _ _ (step_used_from ToggleDarkMode s)
           (step_used_from ToggleDarkMode (exec _toggle_dark_mode s))).
Qed.

(** ** Saving and opening *)

Lemma opened_frame path text s :
  let s' := exec (opened path text) s in
  editor_text s' = text /\ current_file_path s' = Some path /\ fs s' = fs s.
Proof.
  cbn zeta. rewrite opened_run.
  match goal with
  | |- context [exec _update_window_title ?x] =>
      destruct (_update_window_title_frame x)
        as ((_ & _ & _ & _ & E & _) & P & F & _)
  end.
  rewrite E, P, F. cbn [editor_text current_file_path fs set_current_file_path].
  by destruct (editor_setPlainText_frame text s)
    as (_ & _ & _ & -> & _ & _ & -> & _).
Qed.

Lemma edits_frame (edits : list pystr) s :
  fs (run_actions (Edit <$> edits) s) = fs s.
Proof.
  revert s. induction edits as [| text edits IH]; intros s; [reflexivity |].
  change (fs (run_actions (Edit <$> edits) (step (Edit text) s)) = fs s).
  rewrite IH. unfold step. cbn [handle].
  change (modify (set_editor_text text) ;; emit_textChanged)
    with (editor_setPlainText text).
  by destruct (editor_setPlainText_frame text s)
    as (_ & _ & _ & _ & _ & _ & ? & _).
Qed.

(** A save that succeeds stores the encoded text and keeps the editor. *)
Lemma _save_file_as_stores s path (bs : list N) :
  truthy path = true ->
  write_fault (fs s) path = None ->
  utf8_encode (editor_text s) = Some bs ->
  let s' := exec (_save_file_as path) s in
  fs s' = set_files (<[path := bs]> (files (fs s))) (fs s) /\
  editor_text s' = editor_text s.
Proof.
  intros Ht Hf He. cbn zeta. rewrite _save_file_as_exec, Ht.
  unfold exec. rewrite _save_logic_run, write_text_run. cbn zeta.
  cbn [fs editor_text set_trace]. rewrite Hf, He.
  unfold saved. run. rewrite _update_window_title_run. by run.
Qed.

(** C6 - Save then open is a round trip: for an editor text that UTF-8
    can represent, saved through [_save_file_as] to a path that can be
    written, opening the same path leaves the editor with that text; and
    when the path can be read, the text comes back from the file whatever
    was typed in between, and the path is the current one. *)
Theorem save_open_round_trip s path text :
  editor_text s = text ->
  utf8_representable text ->
  truthy path = true ->
  write_fault (fs s) path = None ->
  let s1 := exec (_save_file_as path) s in
  editor_text (exec (_open_file path) s1) = text /\
  (read_fault (fs s) path = None ->
   forall edits,
     let s2 := exec (_open_file path) (run_actions (Edit <$> edits) s1) in
     editor_text s2 = text /\ current_file_path s2 = Some path).
Proof.
  intros He Hu Ht Hf. cbn zeta.
  destruct (utf8_encode_representable text Hu) as [bs Hbs].
  pose proof (utf8_decode_encode text bs Hbs) as Hd.
  rewrite <- He in Hbs.
  destruct (_save_file_as_stores s path bs Ht Hf Hbs) as [Hfs Hed].
  cbn zeta in Hfs, Hed.
  assert (forall s2, fs s2 = fs (exec (_save_file_as path) s) ->
            fst (read_text path s2) =
            match read_fault (fs s) path with
            | Some e => inl e
            | None => inr text
            end) as Hread.
  { intros s2 E. rewrite read_text_result, E, Hfs.
    unfold set_files; cbn [files read_fault].
    destruct (read_fault (fs s) path); [reflexivity |].
    by rewrite lookup_insert_eq, Hd. }
  split.
  - rewrite _open_file_exec, Ht. cbn zeta. rewrite (Hread _ eq_refl).
    destruct (read_fault (fs s) path).
    + exact (eq_trans Hed He).
    + by destruct (opened_frame path text
        (set_trace
           ((trace (exec (_save_file_as path) s) ++ [AskOpenFileName]) ++
            [Opened path mode_r])
           (set_trace (trace (exec (_save_file_as path) s) ++ [AskOpenFileName])
              (exec (_save_file_as path) s)))) as (? & _).
  - intros Hr edits.
    rewrite _open_file_exec, Ht. cbn zeta.
    rewrite (Hread _ (edits_frame edits _)), Hr.
    match goal with
    | |- context [exec (opened path text) ?x] =>
        by destruct (opened_frame path text x) as (? & ? & _)
    end.
Qed.

(** ** Decoding is one to one *)

Lemma fmap_cons_Some (c : N) (o : option pystr) (l : pystr) :
  cons c <$> o = Some l -> exists l' : pystr, l = c :: l' /\ o = Some l'.
Proof. destruct o as [l' |]; [| discriminate]. intros [= <-]. by exists l'. Qed.

Lemma is_cont_range (b : N) : is_cont b = true -> 0x80 <= b < 0xC0.
Proof.
  unfold is_cont. intros [H1 H2]%andb_prop.
  apply N.leb_le in H1. apply N.ltb_lt in H2. lia.
Qed.

(** The bytes that decode to a text are the encoding of that text: the
    decoder accepts no second spelling of a character. *)
Lemma utf8_encode_decode (bs : list N) (s : pystr) :
  utf8_decode bs = Some s -> utf8_encode s = Some bs.
Proof.
  remember (length bs) as n eqn:Hn. revert bs s Hn.
  induction n as [n IH] using lt_wf_ind. intros bs s Hn.
  destruct bs as [| b0 r0]; cbn [utf8_decode].
  { by intros [= <-]. }
  destruct (N.ltb_spec b0 0x80).
  { intros (s' & -> & Hd)%fmap_cons_Some. cbn [utf8_encode].
    rewrite (IH (length r0) ltac:(cbn in Hn; lia) r0 s' eq_refl Hd).
    unfold utf8_encode_char. by destruct (N.ltb_spec b0 0x80); [| lia]. }
  destruct (N.ltb_spec b0 0xC2); [discriminate |].
  destruct (N.ltb_spec b0 0xE0).
  { destruct r0 as [| b1 r1]; [discriminate |].
    destruct (is_cont b1) eqn:C1; [| discriminate].
    apply is_cont_range in C1.
    intros (s' & -> & Hd)%fmap_cons_Some. cbn [utf8_encode].
    rewrite (IH (length r1) ltac:(cbn in Hn; lia) r1 s' eq_refl Hd).
    unfold utf8_encode_char. decide_tests. cbn [app].
    do 2 f_equal; [ediv |]. f_equal. ediv. }
  destruct (N.ltb_spec b0 0xF0).
  { destruct r0 as [| b1 [| b2 r2]]; try discriminate. cbn zeta.
    destruct (is_cont b1) eqn:C1; [| discriminate].
    destruct (is_cont b2) eqn:C2; [| discriminate].
    apply is_cont_range in C1, C2. cbn [andb].
    destruct (N.leb_spec 0x800
                ((b0 - 0xE0) * 4096 + (b1 - 0x80) * 64 + (b2 - 0x80)));
      [| discriminate].
    cbn [andb].
    destruct (is_surrogate _) eqn:Hs; [discriminate |]. cbn [negb].
    intros (s' & -> & Hd)%fmap_cons_Some. cbn [utf8_encode].
    rewrite (IH (length r2) ltac:(cbn in Hn; lia) r2 s' eq_refl Hd).
    unfold utf8_encode_char. rewrite Hs. decide_tests. cbn [app].
    do 2 f_equal; [ediv |]. f_equal; [ediv |]. f_equal. ediv. }
  destruct (N.ltb_spec b0 0xF5); [| discriminate].
  destruct r0 as [| b1 [| b2 [| b3 r3]]]; try discriminate. cbn zeta.
  destruct (is_cont b1) eqn:C1; [| discriminate].
  destruct (is_cont b2) eqn:C2; [| discriminate].
  destruct (is_cont b3) eqn:C3; [| discriminate].
  apply is_cont_range in C1, C2, C3. cbn [andb].
  destruct (N.leb_spec 0x10000
              ((b0 - 0xF0) * 262144 + (b1 - 0x80) * 4096
               + (b2 - 0x80) * 64 + (b3 - 0x80)));
    [| discriminate].
  cbn [andb].
  destruct (N.ltb_spec
              ((b0 - 0xF0) * 262144 + (b1 - 0x80) * 4096
               + (b2 - 0x80) * 64 + (b3 - 0x80)) 0x110000);
    [| discriminate].
  intros (s' & -> & Hd)%fmap_cons_Some. cbn [utf8_encode].
  rewrite (IH (length r3) ltac:(cbn in Hn; lia) r3 s' eq_refl Hd).
  unfold utf8_encode_char. decide_tests. cbn [app].
  do 2 f_equal; [ediv |]. f_equal; [ediv |]. f_equal; [ediv |]. f_equal. ediv.
Qed.

(** ** The footprint of the handlers

    What a handler can change is what its setters change: a function of
    the state that no setter of a handler moves has the same value after
    the handler as before. *)

Lemma exec_update_preview s :
  exec _update_preview s =
  set_preview_html (styled_html (current_theme s) (fragment s))
    (set_markdown_converter
       (snd (Markdown_convert (markdown_converter s) (editor_text s))) s).
Proof. unfold exec. by rewrite _update_preview_run. Qed.

Lemma exec_update_window_title s :
  exec _update_window_title s =
  set_windowTitle (windowTitle (exec _update_window_title s)) s.
Proof. unfold exec. by rewrite _update_window_title_run. Qed.

Lemma exec_editor_setPlainText text s :
  exec (editor_setPlainText text) s =
  if textChanged_connected s
  then exec _update_preview (set_editor_text text s)
  else set_editor_text text s.
Proof.
  unfold exec. rewrite editor_setPlainText_run, emit_textChanged_run.
  cbn [textChanged_connected set_editor_text].
  by destruct (textChanged_connected s).
Qed.

Lemma exec_toggle_dark_mode s :
  exec _toggle_dark_mode s =
  exec _update_preview
    (set_styleSheet
       (app_stylesheet
          (if negb (is_dark_mode s) then dark_theme s else light_theme s))
       (set_dark_mode_checked (negb (is_dark_mode s))
          (set_is_dark_mode (negb (is_dark_mode s)) s))).
Proof. unfold exec. by rewrite _toggle_dark_mode_run, _apply_theme_run. Qed.

Lemma exec_write_text path s :
  exec (write_text path) s =
  let s0 := set_trace (trace s ++ [Opened path mode_w]) s in
  match write_fault (fs s) path with
  | Some e => s0
  | None =>
    match utf8_encode (editor_text s) with
    | None => set_fs (set_files (<[path := []]> (files (fs s))) (fs s)) s0
    | Some bs => set_fs (set_files (<[path := bs]> (files (fs s))) (fs s)) s0
    end
  end.
Proof.
  unfold exec. rewrite write_text_run. cbn zeta.
  destruct (write_fault (fs s) path); [reflexivity |].
  by destruct (utf8_encode (editor_text s)).
Qed.

Section Footprint.
Context {A : Type} (f : State -> A).

Lemma _update_preview_footprint :
  (forall v s, f (set_preview_html v s) = f s) ->
  (forall v s, f (set_markdown_converter v s) = f s) ->
  forall s, f (exec _update_preview s) = f s.
Proof. intros Hp Hm s. by rewrite exec_update_preview, Hp, Hm. Qed.

Lemma edit_footprint :
  (forall v s, f (set_editor_text v s) = f s) ->
  (forall v s, f (set_preview_html v s) = f s) ->
  (forall v s, f (set_markdown_converter v s) = f s) ->
  forall text s, f (exec (editor_setPlainText text) s) = f s.
Proof.
  intros He Hp Hm text s. rewrite exec_editor_setPlainText.
  destruct (textChanged_connected s); [| apply He].
  by rewrite (_update_preview_footprint Hp Hm), He.
Qed.

Lemma toggle_footprint :
  (forall v s, f (set_is_dark_mode v s) = f s) ->
  (forall v s, f (set_dark_mode_checked v s) = f s) ->
  (forall v s, f (set_styleSheet v s) = f s) ->
  (forall v s, f (set_preview_html v s) = f s) ->
  (forall v s, f (set_markdown_converter v s) = f s) ->
  forall s, f (exec _toggle_dark_mode s) = f s.
Proof.
  intros Hd Hc Hs Hp Hm s. rewrite exec_toggle_dark_mode.
  by rewrite (_update_preview_footprint Hp Hm), Hs, Hc, Hd.
Qed.

Lemma open_footprint :
  (forall v s, f (set_trace v s) = f s) ->
  (forall v s, f (set_editor_text v s) = f s) ->
  (forall v s, f (set_preview_html v s) = f s) ->
  (forall v s, f (set_markdown_converter v s) = f s) ->
  (forall v s, f (set_current_file_path v s) = f s) ->
  (forall v s, f (set_windowTitle v s) = f s) ->
  forall answer s, f (exec (_open_file answer) s) = f s.
Proof.
  intros Ht He Hp Hm Hc Hw answer s. rewrite _open_file_exec. cbn zeta.
  destruct (truthy answer); [| apply Ht].
  destruct (fst (read_text answer s)) as [e | text].
  - unfold critical, log, exec, modify. cbn [snd]. by rewrite !Ht.
  - rewrite opened_run, exec_update_window_title, Hw, Hc.
    by rewrite (edit_footprint He Hp Hm), !Ht.
Qed.

Lemma critical_footprint :
  (forall v s, f (set_trace v s) = f s) ->
  forall title text s, f (exec (critical title text) s) = f s.
Proof. intros Ht title text s. apply Ht. Qed.

Lemma write_text_footprint :
  (forall v s, f (set_trace v s) = f s) ->
  (forall v s, f (set_fs v s) = f s) ->
  forall path s, f (exec (write_text path) s) = f s.
Proof.
  intros Ht Hf path s. rewrite exec_write_text. cbn zeta.
  destruct (write_fault (fs s) path); [apply Ht |].
  destruct (utf8_encode (editor_text s)); by rewrite Hf, Ht.
Qed.

Lemma _save_logic_footprint :
  (forall v s, f (set_trace v s) = f s) ->
  (forall v s, f (set_fs v s) = f s) ->
  (forall v s, f (set_current_file_path v s) = f s) ->
  (forall v s, f (set_windowTitle v s) = f s) ->
  forall path s, f (exec (_save_logic path) s) = f s.
Proof.
  intros Ht Hf Hc Hw path s. rewrite _save_logic_exec.
  pose proof (write_text_footprint Ht Hf path s) as Hwt.
  destruct (fst (write_text path s)) as [e | []].
  - by rewrite (critical_footprint Ht).
  - by rewrite saved_run, exec_update_window_title, Hw, Hc.
Qed.

Lemma save_footprint :
  (forall v s, f (set_trace v s) = f s) ->
  (forall v s, f (set_fs v s) = f s) ->
  (forall v s, f (set_current_file_path v s) = f s) ->
  (forall v s, f (set_windowTitle v s) = f s) ->
  forall answer s,
    f (exec (_save_file_as answer) s) = f s /\
    f (exec (_save_file answer) s) = f s.
Proof.
  intros Ht Hf Hc Hw answer s.
  assert (f (exec (_save_file_as answer) s) = f s) as Has.
  { rewrite _save_file_as_exec. destruct (truthy answer); [| apply Ht].
    by rewrite (_save_logic_footprint Ht Hf Hc Hw), Ht. }
  split; [exact Has |].
  unfold exec at 1. rewrite _save_file_run.
  destruct (current_file_path s) as [p |]; [| exact Has].
  destruct (truthy p); [| exact Has].
  apply (_save_logic_footprint Ht Hf Hc Hw).
Qed.

End Footprint.

Lemma step_footprint {A} (f : State -> A) :
  (forall v s, f (set_trace v s) = f s) ->
  (forall v s, f (set_fs v s) = f s) ->
  (forall v s, f (set_current_file_path v s) = f s) ->
  (forall v s, f (set_windowTitle v s) = f s) ->
  (forall v s, f (set_editor_text v s) = f s) ->
  (forall v s, f (set_preview_html v s) = f s) ->
  (forall v s, f (set_markdown_converter v s) = f s) ->
  (forall v s, f (set_is_dark_mode v s) = f s) ->
  (forall v s, f (set_dark_mode_checked v s) = f s) ->
  (forall v s, f (set_styleSheet v s) = f s) ->
  forall a s, f (step a s) = f s.
Proof.
  intros Ht Hf Hc Hw He Hp Hm Hd Hk Hs a s. unfold step.
  destruct a as [text | | answer | answer | answer]; cbn [handle].
  - apply (edit_footprint f He Hp Hm text s).
  - by apply toggle_footprint.
  - by apply open_footprint.
  - by apply save_footprint.
  - by apply save_footprint.
Qed.

Lemma step_setup a s : setup_unchanged s (step a s).
Proof. repeat split; by apply step_footprint. Qed.

(** ** The window stays wired *)

Lemma title_in_sync_eq s s' :
  windowTitle s' = windowTitle s ->
  current_file_path s' = current_file_path s ->
  config s' = config s ->
  title_in_sync s -> title_in_sync s'.
Proof.
  unfold title_in_sync, exec. rewrite !_update_window_title_run.
  cbn [snd windowTitle set_windowTitle]. by intros -> -> ->.
Qed.

Lemma title_in_sync_updated s : title_in_sync (exec _update_window_title s).
Proof.
  unfold title_in_sync, exec. by rewrite !_update_window_title_run.
Qed.

Lemma _save_logic_title path s :
  title_in_sync s -> title_in_sync (exec (_save_logic path) s).
Proof.
  intros T. rewrite _save_logic_exec.
  destruct (fst (write_text path s)) as [e | []].
  - apply (title_in_sync_eq s); [| | | exact T];
      by rewrite critical_footprint, write_text_footprint.
  - rewrite saved_run. apply title_in_sync_updated.
Qed.

Lemma step_title a s : title_in_sync s -> title_in_sync (step a s).
Proof.
  intros T. unfold step.
  destruct a as [text | | answer | answer | answer]; cbn [handle].
  - change (modify (set_editor_text text) ;; emit_textChanged)
      with (editor_setPlainText text).
    apply (title_in_sync_eq s); [| | | exact T]; by apply edit_footprint.
  - apply (title_in_sync_eq s); [| | | exact T]; by apply toggle_footprint.
  - rewrite _open_file_exec. cbn zeta.
    destruct (truthy answer); [| by apply (title_in_sync_eq s)].
    destruct (fst (read_text answer s)) as [e | text].
    + by apply (title_in_sync_eq s).
    + rewrite opened_run. apply title_in_sync_updated.
  - unfold exec. rewrite _save_file_run. fold (exec (_save_file_as answer) s).
    assert (title_in_sync (exec (_save_file_as answer) s)) as Has.
    { rewrite _save_file_as_exec.
      destruct (truthy answer); [| by apply (title_in_sync_eq s)].
      apply _save_logic_title. by apply (title_in_sync_eq s). }
    destruct (current_file_path s) as [p |]; [| exact Has].
    destruct (truthy p); [| exact Has].
    by apply _save_logic_title.
  - rewrite _save_file_as_exec.
    destruct (truthy answer); [| by apply (title_in_sync_eq s)].
    apply _save_logic_title. by apply (title_in_sync_eq s).
Qed.

Lemma step_chrome a s :
  themes_built s ->
  styleSheet s = app_stylesheet (current_theme s) ->
  dark_mode_checked s = is_dark_mode s ->
  styleSheet (step a s) = app_stylesheet (current_theme (step a s)) /\
  dark_mode_checked (step a s) = is_dark_mode (step a s).
Proof.
  intros Hb Hs Hk. unfold step.
  destruct a as [text | | answer | answer | answer]; cbn [handle].
  - change (modify (set_editor_text text) ;; emit_textChanged)
      with (editor_setPlainText text).
    by rewrite (edit_footprint styleSheet), (edit_footprint current_theme),
      (edit_footprint dark_mode_checked), (edit_footprint is_dark_mode).
  - rewrite exec_toggle_dark_mode, exec_update_preview. by run.
  - by rewrite (open_footprint styleSheet), (open_footprint current_theme),
      (open_footprint dark_mode_checked), (open_footprint is_dark_mode).
  - destruct (save_footprint styleSheet ltac:(done) ltac:(done) ltac:(done)
                ltac:(done) answer s) as [_ ->].
    destruct (save_footprint current_theme ltac:(done) ltac:(done) ltac:(done)
                ltac:(done) answer s) as [_ ->].
    destruct (save_footprint dark_mode_checked ltac:(done) ltac:(done)
                ltac:(done) ltac:(done) answer s) as [_ ->].
    by destruct (save_footprint is_dark_mode ltac:(done) ltac:(done)
                   ltac:(done) ltac:(done) answer s) as [_ ->].
  - destruct (save_footprint styleSheet ltac:(done) ltac:(done) ltac:(done)
                ltac:(done) answer s) as [-> _].
    destruct (save_footprint current_theme ltac:(done) ltac:(done) ltac:(done)
                ltac:(done) answer s) as [-> _].
    destruct (save_footprint dark_mode_checked ltac:(done) ltac:(done)
                ltac:(done) ltac:(done) answer s) as [-> _].
    by destruct (save_footprint is_dark_mode ltac:(done) ltac:(done)
                   ltac:(done) ltac:(done) answer s) as [-> _].
Qed.

Lemma wired_step a s : wired s -> wired (step a s).
Proof.
  intros (Hc & Hb & Hs & Hk & Hp & Ht).
  destruct (step_setup a s) as (_ & _ & Hl & Hd & Hn).
  destruct (step_chrome a s Hb Hs Hk) as [Hs' Hk'].
  repeat split; try assumption.
  - congruence.
  - by destruct (themes_built_eq s (step a s) Hl Hd Hb).
  - by destruct (themes_built_eq s (step a s) Hl Hd Hb).
  - by apply path_step.
  - by apply step_title.
Qed.

Lemma _apply_theme_footprint {A} (f : State -> A) :
  (forall v s, f (set_styleSheet v s) = f s) ->
  (forall v s, f (set_preview_html v s) = f s) ->
  (forall v s, f (set_markdown_converter v s) = f s) ->
  forall s, f (exec _apply_theme s) = f s.
Proof.
  intros Hs Hp Hm s. unfold exec. rewrite _apply_theme_run.
  fold (exec _update_preview (set_styleSheet (app_stylesheet (current_theme s)) s)).
  by rewrite (_update_preview_footprint f Hp Hm), Hs.
Qed.

(** From the prepared state of [launched_shape] to the window shown. *)
Lemma launch_footprint {A} (f : State -> A) s0 :
  (forall v s, f (set_styleSheet v s) = f s) ->
  (forall v s, f (set_preview_html v s) = f s) ->
  (forall v s, f (set_markdown_converter v s) = f s) ->
  (forall v s, f (set_editor_text v s) = f s) ->
  (forall v s, f (set_windowTitle v s) = f s) ->
  f (exec _update_window_title
       (exec (editor_setPlainText placeholder) (exec _apply_theme s0))) = f s0.
Proof.
  intros Hs Hp Hm He Hw.
  by rewrite exec_update_window_title, Hw, (edit_footprint f He Hp Hm),
    (_apply_theme_footprint f Hs Hp Hm).
Qed.

Lemma launched_wired cfg w : wired (launched cfg w).
Proof.
  destruct (launched_shape cfg w)
    as (s0 & E & Hc & Hb & Hk & Hd & Hp & _).
  assert (styleSheet (launched cfg w) = app_stylesheet (current_theme s0)) as Hs.
  { rewrite E, exec_update_window_title. cbn [styleSheet set_windowTitle].
    rewrite (edit_footprint styleSheet) by done.
    unfold exec. rewrite _apply_theme_run.
    fold (exec _update_preview (set_styleSheet (app_stylesheet (current_theme s0)) s0)).
    by rewrite (_update_preview_footprint styleSheet). }
  assert (forall {A} (f : State -> A),
            (forall v s, f (set_styleSheet v s) = f s) ->
            (forall v s, f (set_preview_html v s) = f s) ->
            (forall v s, f (set_markdown_converter v s) = f s) ->
            (forall v s, f (set_editor_text v s) = f s) ->
            (forall v s, f (set_windowTitle v s) = f s) ->
            f (launched cfg w) = f s0) as F.
  { intros A f. rewrite E. apply launch_footprint. }
  pose proof (themes_built_eq s0 (launched cfg w)
                (F _ light_theme ltac:(done) ltac:(done) ltac:(done)
                   ltac:(done) ltac:(done))
                (F _ dark_theme ltac:(done) ltac:(done) ltac:(done)
                   ltac:(done) ltac:(done)) Hb) as Hb'.
  split; [| split; [| split; [| split; [| split]]]].
  - by rewrite (F _ textChanged_connected).
  - exact Hb'.
  - rewrite Hs. f_equal. symmetry. by apply (F _ current_theme).
  - by rewrite (F _ dark_mode_checked), (F _ is_dark_mode).
  - left. apply launched_path.
  - rewrite E. apply title_in_sync_updated.
Qed.

Lemma reachable_wired s : reachable s -> wired s.
Proof.
  induction 1 as [cfg w | a s _ IH].
  - apply launched_wired.
  - by apply wired_step.
Qed.

(** ** Opening a file *)

Lemma exec_update_window_title_match s :
  exec _update_window_title s =
  set_windowTitle
    (match current_file_path s with
     | Some p =>
         if truthy p then p ++ py " - " ++ window_title (config s)
         else window_title (config s)
     | None => window_title (config s)
     end) s.
Proof. unfold exec. by rewrite _update_window_title_run. Qed.

Lemma opened_effect path text s :
  let s' := exec (opened path text) s in
  editor_text s' = text /\
  current_file_path s' = Some path /\
  fs s' = fs s /\
  trace s' = trace s /\
  (truthy path = true ->
   windowTitle s' = path ++ py " - " ++ window_title (config s)) /\
  (textChanged_connected s = true ->
   preview_html s' =
     styled_html (current_theme s)
       (fst (Markdown_convert (markdown_converter s) text))).
Proof.
  cbn zeta. rewrite opened_run, exec_update_window_title_match.
  cbn [editor_text current_file_path fs trace windowTitle preview_html
       config set_windowTitle set_current_file_path].
  destruct (editor_setPlainText_frame text s)
    as (Hc & _ & _ & He & _ & _ & Hf & Ht & _).
  cbn zeta in *. rewrite He, Hf, Ht, Hc.
  repeat split.
  - by intros ->.
  - intros Hn. rewrite exec_editor_setPlainText, Hn, exec_update_preview.
    reflexivity.
Qed.

Lemma _open_file_success path text s :
  truthy path = true ->
  fst (read_text path s) = inr text ->
  exec (_open_file path) s =
  exec (opened path text)
    (set_trace (trace s ++ [AskOpenFileName; Opened path mode_r]) s).
Proof.
  intros Ht Hr. rewrite _open_file_exec, Ht. cbn zeta. rewrite Hr.
  cbn [trace set_trace]. rewrite <- app_assoc. reflexivity.
Qed.

(** X1 - A successful open loads the file: when the chosen path reads as
    the text [text], a text that text mode and the widget leave as it is,
    [_open_file] puts that text in the editor without
    asking about the text it replaces, makes the path the current one,
    puts it in the window title, renders the new text with the theme in
    use, and leaves the file system as it was; the only events are the
    dialog and the opening of the file for reading. *)
Theorem open_success_loads_file s path text :
  truthy path = true ->
  fst (read_text path s) = inr text ->
  plain_text text ->
  textChanged_connected s = true ->
  let s' := exec (_open_file path) s in
  editor_text s' = text /\
  current_file_path s' = Some path /\
  windowTitle s' = path ++ py " - " ++ window_title (config s) /\
  fs s' = fs s /\
  new_events s s' = [AskOpenFileName; Opened path mode_r] /\
  preview_html s' =
    styled_html (current_theme s)
      (fst (Markdown_convert (markdown_converter s) text)).
Proof.
  intros Ht Hr _ Hn. cbn zeta. rewrite (_open_file_success path text s Ht Hr).
  destruct (opened_effect path text
              (set_trace (trace s ++ [AskOpenFileName; Opened path mode_r]) s))
    as (He & Hp & Hf & Htr & Hw & Hv).
  cbn zeta in *. repeat split; try assumption.
  - by apply Hw.
  - by apply new_events_app.
  - by apply Hv.
Qed.

(** X7 - Opening never writes: whatever the user answers and whether the
    read succeeds or not, [_open_file] leaves the file system, the theme
    flag, the check mark and the style sheet of the window as they were. *)
Theorem open_never_writes s answer :
  let s' := exec (_open_file answer) s in
  fs s' = fs s /\
  is_dark_mode s' = is_dark_mode s /\
  dark_mode_checked s' = dark_mode_checked s /\
  styleSheet s' = styleSheet s.
Proof. cbn zeta. repeat split; by apply open_footprint. Qed.

(** ** Events of the view *)

Lemma run_actions_cons a (l : list Action) s :
  run_actions (a :: l) s = run_actions l (step a s).
Proof. reflexivity. Qed.

Lemma view_action_footprint {A} (f : State -> A) a s :
  (forall v s, f (set_editor_text v s) = f s) ->
  (forall v s, f (set_preview_html v s) = f s) ->
  (forall v s, f (set_markdown_converter v s) = f s) ->
  (forall v s, f (set_is_dark_mode v s) = f s) ->
  (forall v s, f (set_dark_mode_checked v s) = f s) ->
  (forall v s, f (set_styleSheet v s) = f s) ->
  is_view_action a = true ->
  f (step a s) = f s.
Proof.
  intros He Hp Hm Hd Hk Hs Ha. unfold step.
  destruct a as [text | | answer | answer | answer]; try discriminate;
    cbn [handle].
  - apply (edit_footprint f He Hp Hm text s).
  - by apply toggle_footprint.
Qed.

(** X6 - Typing and toggling the theme touch no file: after any sequence
    of edits and theme toggles the file system, the current path and the
    window title are those from before, and nothing was added to the
    trace: no dialog was shown and no file was opened. *)
Theorem view_actions_touch_no_file (l : list Action) s :
  forallb is_view_action l = true ->
  let s' := run_actions l s in
  fs s' = fs s /\
  current_file_path s' = current_file_path s /\
  windowTitle s' = windowTitle s /\
  trace s' = trace s.
Proof.
  revert s. induction l as [| a l IH]; intros s; [done |].
  cbn [forallb]. intros [Ha Hl]%andb_prop. cbn zeta.
  rewrite run_actions_cons.
  destruct (IH (step a s) Hl) as (-> & -> & -> & ->).
  repeat split; by apply view_action_footprint.
Qed.

(** ** The window when it is shown *)

Lemma launched_prepared cfg w :
  launched cfg w =
  exec _update_window_title
    (exec (editor_setPlainText placeholder)
       (exec _apply_theme
          (exec _setup_menu
             (exec _setup_ui
                (exec _setup_window
                   (exec _create_themes
                      (set_markdown_converter
                         (Markdown_new
                            [py "fenced-code-blocks"; py "tables"; py "strike"])
                         (set_is_dark_mode true
                            (set_current_file_path None
                               (set_config cfg (boot cfg w))))))))))).
Proof.
  unfold launched, __init__.
  do 8 (rewrite exec_bind_unit by reflexivity).
  rewrite exec_bind_unit by apply _apply_theme_returns.
  rewrite exec_bind_unit by apply editor_setPlainText_returns.
  reflexivity.
Qed.

(** X2 - The window as [__init__] leaves it, for every configuration
    whose sizes [setGeometry] accepts and every file system: the
    configuration is stored and gives the title; dark mode is on, with the check mark set and the dark
    chrome on the window; no file is current; the editor holds the
    placeholder and the preview shows it rendered with the dark theme by
    the second call of the converter (the first rendered the empty
    editor); no dialog was shown and no file was touched. *)
Theorem launch_state cfg w :
  fits_c_int cfg ->
  let s := launched cfg w in
  config s = cfg /\
  is_dark_mode s = true /\
  dark_mode_checked s = true /\
  styleSheet s = dark_app_stylesheet /\
  current_file_path s = None /\
  windowTitle s = window_title cfg /\
  editor_text s = placeholder /\
  preview_html s =
    styled_html (dark_theme s)
      (fst (Markdown_convert
              (snd (Markdown_convert
                      (Markdown_new
                         [py "fenced-code-blocks"; py "tables"; py "strike"])
                      []))
              placeholder)) /\
  fs s = w /\
  trace s = [].
Proof.
  intros _. cbn zeta. rewrite launched_prepared.
  set (s0 := exec _setup_menu _).
  assert (config s0 = cfg /\
          is_dark_mode s0 = true /\ dark_mode_checked s0 = true /\
          current_file_path s0 = None /\ fs s0 = w /\ trace s0 = [] /\
          textChanged_connected s0 = true /\ editor_text s0 = [] /\
          app_stylesheet (dark_theme s0) = dark_app_stylesheet /\
          markdown_converter s0 =
            Markdown_new [py "fenced-code-blocks"; py "tables"; py "strike"])
    as (Hc & Hd & Hk & Hp & Hf & Ht & Hn & He & Ha & Hm).
  { subst s0. unfold _setup_menu, _setup_ui, _setup_window, _create_themes, boot.
    run. by repeat split. }
  clearbody s0.
  set (s1 := exec _apply_theme s0).
  assert (s1 =
          set_preview_html (styled_html (dark_theme s0) (fst (Markdown_convert (markdown_converter s0) [])))
            (set_markdown_converter (snd (Markdown_convert (markdown_converter s0) []))
               (set_styleSheet (app_stylesheet (dark_theme s0)) s0))) as E1.
  { subst s1. unfold exec. rewrite _apply_theme_run, _update_preview_run.
    unfold current_theme, fragment. run. by rewrite Hd, He. }
  clearbody s1.
  set (s2 := exec (editor_setPlainText placeholder) s1).
  assert (s2 =
          set_preview_html
            (styled_html (dark_theme s0)
               (fst (Markdown_convert (markdown_converter s1) placeholder)))
            (set_markdown_converter
               (snd (Markdown_convert (markdown_converter s1) placeholder))
               (set_editor_text placeholder s1))) as E2.
  { subst s2. rewrite exec_editor_setPlainText.
    assert (textChanged_connected s1 = true) as -> by (by rewrite E1).
    rewrite exec_update_preview. unfold current_theme, fragment. run.
    assert (is_dark_mode s1 = true) as -> by (by rewrite E1).
    assert (dark_theme s1 = dark_theme s0) as -> by (by rewrite E1).
    reflexivity. }
  clearbody s2.
  rewrite exec_update_window_title_match.
  assert (current_file_path s2 = None) as Hp2 by (by rewrite E2, E1).
  rewrite Hp2. cbn [config geometry is_dark_mode dark_mode_checked styleSheet
    current_file_path windowTitle editor_text preview_html dark_theme fs trace
    set_windowTitle].
  rewrite E2.
  cbn [config geometry is_dark_mode dark_mode_checked styleSheet
    current_file_path windowTitle editor_text preview_html dark_theme fs trace
    set_preview_html set_markdown_converter set_editor_text].
  rewrite E1.
  cbn [config geometry is_dark_mode dark_mode_checked styleSheet
    current_file_path windowTitle editor_text preview_html dark_theme fs trace
    markdown_converter set_preview_html set_markdown_converter set_styleSheet].
  rewrite Hm, Hc. by repeat split.
Qed.

(** X3 - The save handlers let no exception escape: [_save_logic],
    [_save_file] and [_save_file_as] return in every state and for every
    answer of the user, although opening the file and writing to it can
    raise: what the file access raises is caught by the save logic. *)
Theorem save_handlers_catch :
  (forall path s, returns (_save_logic path) s) /\
  (forall answer s, returns (_save_file_as answer) s) /\
  (forall answer s, returns (_save_file answer) s).
Proof.
  split; [| split].
  - intros path s. exists tt. rewrite _save_logic_run.
    by destruct (write_text path s) as [[e | []] s1].
  - intros answer s. exists tt. apply (handle_returns (SaveFileAs answer)).
  - intros answer s. exists tt. apply (handle_returns (SaveFile answer)).
Qed.

Lemma run_actions_reachable (l : list Action) s :
  reachable s -> reachable (run_actions l s).
Proof.
  revert s. induction l as [| a l IH]; intros s Hr; [exact Hr |].
  rewrite run_actions_cons. apply IH. by constructor.
Qed.

Lemma run_actions_setup (l : list Action) s :
  setup_unchanged s (run_actions l s).
Proof.
  revert s. induction l as [| a l IH]; intros s; [by repeat split |].
  rewrite run_actions_cons.
  destruct (IH (step a s)) as (? & ? & ? & ? & ?).
  destruct (step_setup a s) as (? & ? & ? & ? & ?).
  repeat split; congruence.
Qed.

(** X4 - What [__init__] sets up stays: for a configuration whose sizes
    [setGeometry] accepts, after any sequence of events the configuration
    is that of the launch, the editor's signal is still connected, and the two themes are the ones built by
    [_create_themes]: the document and chrome rules of the source and, for
    the syntax rules, the formatter's rules for the styles [default] and
    [monokai], or the empty string when pygments is missing. *)
Theorem setup_is_fixed cfg w (l : list Action) :
  fits_c_int cfg ->
  let s := run_actions l (launched cfg w) in
  config s = cfg /\
  textChanged_connected s = true /\
  light_theme s =
    {| pygments_css :=
         match HtmlFormatter with
         | Some formatter => formatter (py "default") (py ".codehilite")
         | None => []
         end;
       html_css := light_html_css;
       app_stylesheet := light_app_stylesheet |} /\
  dark_theme s =
    {| pygments_css :=
         match HtmlFormatter with
         | Some formatter => formatter (py "monokai") (py ".codehilite")
         | None => []
         end;
       html_css := dark_html_css;
       app_stylesheet := dark_app_stylesheet |}.
Proof.
  intros _. cbn zeta.
  destruct (run_actions_setup l (launched cfg w)) as (-> & _ & -> & -> & ->).
  destruct (launched_wired cfg w) as (Hc & [Hl Hd] & _).
  rewrite Hc, Hl, Hd. rewrite launched_prepared.
  rewrite !launch_footprint by done.
  unfold _setup_menu, _setup_ui, _setup_window, _create_themes, boot.
  run. by repeat split.
Qed.

(** ** The theme and the title in every state *)

Lemma wired_chrome s :
  wired s ->
  styleSheet s =
    (if is_dark_mode s then dark_app_stylesheet else light_app_stylesheet).
Proof.
  intros (_ & Hb & Hs & _). destruct (themes_built_chrome s Hb) as [Hl Hd].
  rewrite Hs. unfold current_theme. by destruct (is_dark_mode s).
Qed.

(** X12 - The chrome follows the flag: in every state the application
    reaches, the check mark of the dark-mode action is the dark-mode flag,
    and the style sheet of the window is the dark chrome when the flag is
    set and the light chrome when it is not. *)
Theorem chrome_follows_mode s :
  reachable s ->
  dark_mode_checked s = is_dark_mode s /\
  styleSheet s =
    (if is_dark_mode s then dark_app_stylesheet else light_app_stylesheet).
Proof.
  intros Hr. pose proof (reachable_wired s Hr) as W.
  split; [by destruct W as (_ & _ & _ & ? & _) | by apply wired_chrome].
Qed.

(** X5 - A toggle switches the theme and nothing else: in every state the
    application reaches, [_toggle_dark_mode] inverts the flag, sets the
    check mark to the new flag, and puts the other theme's chrome on the
    window, which differs from the one before; the editor's text, the
    current path, the title, the file system and the trace stay. *)
Theorem toggle_switches_theme s :
  reachable s ->
  let s' := step ToggleDarkMode s in
  is_dark_mode s' = negb (is_dark_mode s) /\
  dark_mode_checked s' = negb (is_dark_mode s) /\
  styleSheet s' =
    (if is_dark_mode s then light_app_stylesheet else dark_app_stylesheet) /\
  styleSheet s' <> styleSheet s /\
  editor_text s' = editor_text s /\
  current_file_path s' = current_file_path s /\
  windowTitle s' = windowTitle s /\
  fs s' = fs s /\
  trace s' = trace s.
Proof.
  intros Hr. cbn zeta.
  pose proof (reachable_wired s Hr) as W.
  pose proof (wired_chrome s W) as Hs.
  pose proof (wired_chrome _ (wired_step ToggleDarkMode s W)) as Hs'.
  pose proof (wired_step ToggleDarkMode s W) as (_ & _ & _ & Hk' & _).
  unfold step in *. cbn [handle] in *.
  destruct (_toggle_dark_mode_frame s)
    as (_ & Hp & Hd & He & Hw & Hf & Ht & _).
  cbn zeta in *. rewrite Hd in Hs', Hk'.
  repeat split; try assumption.
  - rewrite Hs'. by destruct (is_dark_mode s).
  - rewrite Hs', Hs. destruct (is_dark_mode s); cbn [negb];
      [apply stylesheets_differ | intros H; by apply stylesheets_differ].
Qed.

(** X11 - The title is never stale: in every state the application
    reaches, the window title is the configured title when no file is
    current, and the current path, [" - "] and the configured title when
    one is. *)
Theorem title_never_stale s :
  reachable s ->
  windowTitle s =
    match current_file_path s with
    | Some p => p ++ py " - " ++ window_title (config s)
    | None => window_title (config s)
    end.
Proof.
  intros Hr. destruct (reachable_wired s Hr) as (_ & _ & _ & _ & Hp & Ht).
  unfold title_in_sync in Ht. rewrite exec_update_window_title_match in Ht.
  cbn [windowTitle set_windowTitle] in Ht. rewrite Ht.
  destruct Hp as [-> | (p & -> & ->)]; reflexivity.
Qed.

(** ** Saving and the file system *)

Lemma _save_file_as_footprint {A} (f : State -> A) :
  (forall v s, f (set_trace v s) = f s) ->
  (forall v s, f (set_fs v s) = f s) ->
  (forall v s, f (set_current_file_path v s) = f s) ->
  (forall v s, f (set_windowTitle v s) = f s) ->
  forall answer s, f (exec (_save_file_as answer) s) = f s.
Proof. intros Ht Hf Hc Hw answer s. by apply save_footprint. Qed.

Lemma _save_file_footprint {A} (f : State -> A) :
  (forall v s, f (set_trace v s) = f s) ->
  (forall v s, f (set_fs v s) = f s) ->
  (forall v s, f (set_current_file_path v s) = f s) ->
  (forall v s, f (set_windowTitle v s) = f s) ->
  forall answer s, f (exec (_save_file answer) s) = f s.
Proof. intros Ht Hf Hc Hw answer s. by apply save_footprint. Qed.

(** X13 - Saving leaves the view alone: [_save_file] and [_save_file_as],
    whatever the user answers and whether the write succeeds or not, keep
    the editor's text, the preview, the converter object, the theme flag,
    the themes, the check mark and the style sheet of the window. *)
Theorem save_keeps_view s answer :
  view_unchanged s (exec (_save_file answer) s) /\
  view_unchanged s (exec (_save_file_as answer) s).
Proof.
  split; repeat split;
    first [by apply _save_file_footprint | by apply _save_file_as_footprint].
Qed.

Lemma _save_logic_fs path s :
  fs (exec (_save_logic path) s) =
  match write_fault (fs s) path with
  | Some _ => fs s
  | None =>
    match utf8_encode (editor_text s) with
    | Some bs => set_files (<[path := bs]> (files (fs s))) (fs s)
    | None => set_files (<[path := []]> (files (fs s))) (fs s)
    end
  end.
Proof.
  rewrite _save_logic_exec.
  assert (fs (exec (write_text path) s) =
          match write_fault (fs s) path with
          | Some _ => fs s
          | None =>
            match utf8_encode (editor_text s) with
            | Some bs => set_files (<[path := bs]> (files (fs s))) (fs s)
            | None => set_files (<[path := []]> (files (fs s))) (fs s)
            end
          end) as <-.
  { rewrite exec_write_text. cbn zeta.
    destruct (write_fault (fs s) path); [reflexivity |].
    by destruct (utf8_encode (editor_text s)). }
  destruct (fst (write_text path s)) as [e | []].
  - reflexivity.
  - by rewrite saved_run, exec_update_window_title.
Qed.

(** X14 - A refused save changes no file: when the host refuses to open
    the path for writing, [_save_file_as] leaves the whole file system as
    it was, and the editor's text with it. *)
Theorem refused_save_leaves_files s path e :
  truthy path = true ->
  write_fault (fs s) path = Some e ->
  let s' := exec (_save_file_as path) s in
  fs s' = fs s /\
  editor_text s' = editor_text s.
Proof.
  intros Ht He. cbn zeta. split.
  - rewrite _save_file_as_exec, Ht, _save_logic_fs.
    cbn [fs set_trace]. by rewrite He.
  - by apply _save_file_as_footprint.
Qed.

Lemma _save_file_exec answer s :
  exec (_save_file answer) s =
  match current_file_path s with
  | Some p =>
      if truthy p then exec (_save_logic p) s
      else exec (_save_file_as answer) s
  | None => exec (_save_file_as answer) s
  end.
Proof.
  unfold exec. rewrite _save_file_run.
  destruct (current_file_path s) as [p |]; [| reflexivity].
  by destruct (truthy p).
Qed.

Lemma edits_footprint {A} (f : State -> A) (edits : list pystr) s :
  (forall v s, f (set_editor_text v s) = f s) ->
  (forall v s, f (set_preview_html v s) = f s) ->
  (forall v s, f (set_markdown_converter v s) = f s) ->
  f (run_actions (Edit <$> edits) s) = f s.
Proof.
  intros He Hp Hm. revert s.
  induction edits as [| text edits IH]; intros s; [reflexivity |].
  change (f (run_actions (Edit <$> edits) (step (Edit text) s)) = f s).
  rewrite IH. apply (edit_footprint f He Hp Hm text s).
Qed.

(** X10 - A save binds the path: once [_save_file_as] has written to a
    path, that path stays the current one through later edits, and
    [_save_file] then writes the edited text to it without showing a
    dialog, whatever the user would have answered. *)
Theorem save_binds_path s path (edits : list pystr) answer :
  truthy path = true ->
  write_fault (fs s) path = None ->
  is_Some (utf8_encode (editor_text s)) ->
  let s1 := exec (_save_file_as path) s in
  let s2 := run_actions (Edit <$> edits) s1 in
  let s3 := exec (_save_file answer) s2 in
  current_file_path s2 = Some path /\
  ~ In AskSaveFileName (new_events s2 s3) /\
  (forall bs, utf8_encode (editor_text s2) = Some bs ->
     files (fs s3) !! path = Some bs).
Proof.
  intros Ht Hf [bs0 He]. cbn zeta.
  set (s1 := exec (_save_file_as path) s).
  set (s2 := run_actions (Edit <$> edits) s1).
  assert (current_file_path s1 = Some path) as P1.
  { destruct (_save_file_as_write_first path s Ht) as [_ Hs].
    apply Hs. exists tt. by rewrite write_text_run, Hf, He. }
  assert (write_fault (fs s1) path = None) as F1.
  { subst s1. rewrite _save_file_as_exec, Ht, _save_logic_fs.
    cbn [fs editor_text set_trace]. by rewrite Hf, He. }
  assert (current_file_path s2 = Some path) as P2
    by (subst s2; by rewrite edits_footprint).
  assert (fs s2 = fs s1) as F2 by (subst s2; by rewrite edits_footprint).
  split; [exact P2 |].
  rewrite _save_file_exec, P2, Ht.
  pose proof (_save_logic_outcome path s2 Ht) as O. cbn zeta in O.
  rewrite write_text_run, F2, F1 in O. cbn zeta in O.
  destruct (utf8_encode (editor_text s2)) as [bs |]; cbn [fst] in O.
  - destruct O as (T & Fl & _). rewrite (new_events_app _ _ _ T).
    split; [intros [? | []]; discriminate |].
    by intros bs' [= <-].
  - destruct O as (T & _). rewrite (new_events_app _ _ _ T).
    split; [intros [? | [? | []]]; discriminate | discriminate].
Qed.

End Properties.

(** ** The properties at the sample inputs *)

Lemma extras_converter_forgets : @converter_forgets extras_libraries.
Proof. intros m before text. reflexivity. Defined.

Lemma forallb_representable (s : pystr) :
  forallb scalar s = true -> utf8_representable s.
Proof.
  unfold utf8_representable. induction s as [| c s IH]; cbn [forallb].
  - constructor.
  - intros [Hc Hs]%andb_prop. constructor; [exact Hc | exact (IH Hs)].
Defined.


(** The converter object of the later window has been through four calls
    more than that of the window as shown. *)
Example sample_window_calls :
  snd (markdown_converter sample_window) = 2%nat /\
  snd (markdown_converter sample_window_later) = 6%nat.
Proof. vm_compute. split; reflexivity. Qed.

(** A converter whose output depends on its earlier calls does break the
    determinism of the render. *)
Example leaking_converter_renders_differ :
  preview_html (exec _update_preview (exec _update_preview sample_leaking)) <>
  preview_html (exec _update_preview sample_leaking).
Proof.
  apply (bool_decide_eq_false_1 _). vm_compute. reflexivity.
Qed.

(** C2, as the specification words it, fails: in the window just shown,
    in dark mode, the preview document does not hold the chrome style
    sheet of the dark theme. *)
Lemma chrome_css_not_in_document : ~ interpolates_all_three sample_launched.
Proof.
  intros (_ & _ & _ & H). apply occursb_spec in H.
  vm_compute in H. discriminate.
Qed.

Lemma save_is_write_first_witness :
  write_first [] (py "/readonly/out.md") sample_launched
    (exec (_save_logic (py "/readonly/out.md")) sample_launched) /\
  write_first [AskSaveFileName] (py "/readonly/out.md") sample_launched
    (exec (_save_file_as (py "/readonly/out.md")) sample_launched).
Proof.
  apply (save_is_write_first sample_launched (py "/readonly/out.md")).
  reflexivity.
Defined.

(** A save to the read-only directory: the dialog, the attempt, the error;
    the current path stays unset. *)
Example refused_save_keeps_path :
  let s' := exec (_save_file_as (py "/readonly/out.md")) sample_launched in
  current_file_path s' = None /\
  windowTitle s' = py "Joe's Markdown Viewer" /\
  trace s' =
    [AskSaveFileName; Opened (py "/readonly/out.md") mode_w;
     Critical (py "Error")
       (py "Could not save file: [Errno 30] Read-only file system: '/readonly/out.md'")].
Proof. vm_compute. repeat split. Qed.

Lemma open_failure_keeps_state_witness :
  let s' := exec (_open_file (py "missing.md")) sample_launched in
  returns (_open_file (py "missing.md")) sample_launched /\
  s' = set_trace
         (trace sample_launched ++
          [AskOpenFileName; Opened (py "missing.md") mode_r;
           Critical (py "Error")
             (py "Could not open file: "
              ++ exn_str (FileNotFoundError (py "missing.md")))])
         sample_launched /\
  current_file_path s' = current_file_path sample_launched /\
  editor_text s' = editor_text sample_launched /\
  same_interface sample_launched s'.
Proof.
  apply (open_failure_keeps_state sample_launched (py "missing.md")
           (FileNotFoundError (py "missing.md"))).
  - reflexivity.
  - vm_compute. reflexivity.
Defined.

Lemma toggle_twice_restores_witness :
  let s' := exec (_toggle_dark_mode ;; _toggle_dark_mode) sample_window_later in
  styleSheet s' = styleSheet sample_window_later /\
  preview_html s' = preview_html sample_window_later /\
  is_dark_mode s' = is_dark_mode sample_window_later.
Proof.
  apply (toggle_twice_restores sample_window_later).
  - exact extras_converter_forgets.
  - exact (run_actions_reachable sample_events sample_window
             (reachable_launched AppConfig_default sample_world)).
Defined.

Lemma save_open_round_trip_witness :
  let s1 := exec (_save_file_as (py "out.md")) sample_edited in
  editor_text (exec (_open_file (py "out.md")) s1) = sample_text /\
  (read_fault (fs sample_edited) (py "out.md") = None ->
   forall edits,
     let s2 := exec (_open_file (py "out.md"))
                 (run_actions (Edit <$> edits) s1) in
     editor_text s2 = sample_text /\ current_file_path s2 = Some (py "out.md")).
Proof.
  apply (save_open_round_trip sample_edited (py "out.md") sample_text).
  - vm_compute. reflexivity.
  - apply forallb_representable. vm_compute. reflexivity.
  - reflexivity.
  - vm_compute. reflexivity.
Defined.

(** The bytes on disk after the save of the sample text. *)
Example saved_bytes :
  files (fs sample_saved) !! py "out.md" =
  Some [0x48; 0xC3; 0xA9; 0xE2; 0x82; 0xAC; 0xF0; 0x9F; 0x98; 0x80; 10].
Proof. vm_compute. reflexivity. Qed.

(** With the leaking converter two toggles do not bring the preview
    back. *)
Example leaking_converter_toggles_differ :
  preview_html (exec (_toggle_dark_mode ;; _toggle_dark_mode) sample_leaking) <>
  preview_html sample_leaking.
Proof.
  apply (bool_decide_eq_false_1 _). vm_compute. reflexivity.
Qed.

Lemma preview_never_stale_witness :
  settled sample_window /\
  settled (step (OpenFile (py "notes.md")) sample_window) /\
  in_sync (step (OpenFile (py "notes.md")) sample_window) /\
  one_theme_active (step (OpenFile (py "notes.md")) sample_window).
Proof.
  destruct (preview_never_stale extras_converter_forgets) as (I & P & Q).
  pose proof (I AppConfig_default sample_world) as S0.
  pose proof (P (OpenFile (py "notes.md")) _ S0) as S1.
  destruct (Q _ S1) as (_ & Y & A).
  exact (conj S0 (conj S1 (conj Y A))).
Defined.

(** Opening the note puts its text in the editor and renders it. *)
Example opened_note :
  let s := step (OpenFile (py "notes.md")) sample_launched in
  editor_text s = py "# hi" ++ nl /\
  current_file_path s = Some (py "notes.md") /\
  windowTitle s = py "notes.md - Joe's Markdown Viewer" /\
  occurs (py "<p># hi" ++ nl ++ py "</p>") (preview_html s).
Proof.
  cbn zeta. repeat split; try (vm_compute; reflexivity).
  apply occursb_spec. vm_compute. reflexivity.
Qed.

Lemma save_file_dispatch_witness :
  let s' := exec (_save_file (py "other.md")) sample_saved in
  _save_file (py "other.md") sample_saved = _save_logic (py "out.md") sample_saved /\
  ~ In AskSaveFileName (new_events sample_saved s') /\
  In (Opened (py "out.md") mode_w) (new_events sample_saved s') /\
  (returns (write_text (py "out.md")) sample_saved ->
     files (fs s') !! py "out.md" = utf8_encode (editor_text sample_saved)).
Proof.
  apply (proj1 (save_file_dispatch sample_saved (py "other.md")) (py "out.md")).
  - vm_compute. reflexivity.
  - reflexivity.
Defined.

Lemma window_title_format_witness :
  windowTitle (exec _update_window_title sample_saved) =
    py "out.md" ++ py " - " ++ window_title (config sample_saved) /\
  windowTitle (exec _update_window_title sample_launched) =
    window_title (config sample_launched) /\
  path_unset_or_named sample_saved.
Proof.
  destruct (window_title_format sample_saved) as (Hn & _ & Hr).
  destruct (window_title_format sample_launched) as (_ & Hu & _).
  split; [| split].
  - apply (Hn (py "out.md")); [vm_compute; reflexivity | reflexivity].
  - apply Hu. vm_compute. reflexivity.
  - apply Hr. apply reachable_step, reachable_step, reachable_launched.
Defined.

(** ** The further properties at the sample inputs *)

Lemma sample_saved_reachable : reachable sample_saved.
Proof.
  exact (reachable_step _ _
           (reachable_step _ _
              (reachable_launched AppConfig_default sample_world))).
Defined.

Lemma open_success_loads_file_witness :
  let s' := exec (_open_file (py "notes.md")) sample_launched in
  editor_text s' = py "# hi" ++ nl /\
  current_file_path s' = Some (py "notes.md") /\
  windowTitle s' =
    py "notes.md" ++ py " - " ++ window_title (config sample_launched) /\
  fs s' = fs sample_launched /\
  new_events sample_launched s' =
    [AskOpenFileName; Opened (py "notes.md") mode_r] /\
  preview_html s' =
    styled_html (current_theme sample_launched)
      (fst (Markdown_convert (markdown_converter sample_launched)
              (py "# hi" ++ nl))).
Proof.
  apply (open_success_loads_file sample_launched (py "notes.md")
           (py "# hi" ++ nl)).
  - reflexivity.
  - vm_compute. reflexivity.
  - vm_compute. reflexivity.
  - vm_compute. reflexivity.
Defined.

Lemma toggle_switches_theme_witness :
  let s' := step ToggleDarkMode sample_launched in
  is_dark_mode s' = negb (is_dark_mode sample_launched) /\
  dark_mode_checked s' = negb (is_dark_mode sample_launched) /\
  styleSheet s' =
    (if is_dark_mode sample_launched
     then light_app_stylesheet else dark_app_stylesheet) /\
  styleSheet s' <> styleSheet sample_launched /\
  editor_text s' = editor_text sample_launched /\
  current_file_path s' = current_file_path sample_launched /\
  windowTitle s' = windowTitle sample_launched /\
  fs s' = fs sample_launched /\
  trace s' = trace sample_launched.
Proof.
  apply (toggle_switches_theme sample_launched).
  exact (reachable_launched AppConfig_default sample_world).
Defined.

Lemma view_actions_touch_no_file_witness :
  let s' :=
    run_actions [Edit sample_text; ToggleDarkMode; Edit (py "x")] sample_saved in
  fs s' = fs sample_saved /\
  current_file_path s' = current_file_path sample_saved /\
  windowTitle s' = windowTitle sample_saved /\
  trace s' = trace sample_saved.
Proof.
  apply (view_actions_touch_no_file
           [Edit sample_text; ToggleDarkMode; Edit (py "x")] sample_saved).
  reflexivity.
Defined.

Lemma refused_save_leaves_files_witness :
  let s' := exec (_save_file_as (py "/readonly/out.md")) sample_edited in
  fs s' = fs sample_edited /\
  editor_text s' = editor_text sample_edited.
Proof.
  apply (refused_save_leaves_files sample_edited (py "/readonly/out.md")
           (OSError 30 (py "Read-only file system") (py "/readonly/out.md"))).
  - reflexivity.
  - vm_compute. reflexivity.
Defined.

Lemma save_binds_path_witness :
  let s1 := exec (_save_file_as (py "out.md")) sample_edited in
  let s2 := run_actions (Edit <$> [py "a"; sample_text]) s1 in
  let s3 := exec (_save_file (py "other.md")) s2 in
  current_file_path s2 = Some (py "out.md") /\
  ~ In AskSaveFileName (new_events s2 s3) /\
  (forall bs, utf8_encode (editor_text s2) = Some bs ->
     files (fs s3) !! py "out.md" = Some bs).
Proof.
  apply (save_binds_path sample_edited (py "out.md") [py "a"; sample_text]
           (py "other.md")).
  - reflexivity.
  - vm_compute. reflexivity.
  - vm_compute. eexists. reflexivity.
Defined.

Lemma title_never_stale_witness :
  windowTitle sample_saved =
    match current_file_path sample_saved with
    | Some p => p ++ py " - " ++ window_title (config sample_saved)
    | None => window_title (config sample_saved)
    end.
Proof. apply (title_never_stale sample_saved). exact sample_saved_reachable. Defined.

Lemma chrome_follows_mode_witness :
  dark_mode_checked sample_saved = is_dark_mode sample_saved /\
  styleSheet sample_saved =
    (if is_dark_mode sample_saved
     then dark_app_stylesheet else light_app_stylesheet).
Proof. apply (chrome_follows_mode sample_saved). exact sample_saved_reachable. Defined.

Lemma launch_state_witness :
  let s := sample_window in
  config s = AppConfig_default /\
  is_dark_mode s = true /\
  dark_mode_checked s = true /\
  styleSheet s = dark_app_stylesheet /\
  current_file_path s = None /\
  windowTitle s = window_title AppConfig_default /\
  editor_text s = placeholder /\
  preview_html s =
    styled_html (dark_theme s)
      (fst (@Markdown_convert extras_libraries
              (snd (@Markdown_convert extras_libraries
                      (@Markdown_new extras_libraries
                         [py "fenced-code-blocks"; py "tables"; py "strike"])
                      []))
              placeholder)) /\
  fs s = sample_world /\
  trace s = [].
Proof.
  apply (launch_state (L := extras_libraries) AppConfig_default sample_world).
  split; reflexivity.
Defined.

Lemma setup_is_fixed_witness :
  let s := sample_window_later in
  config s = AppConfig_default /\
  textChanged_connected s = true /\
  light_theme s =
    {| pygments_css := [];
       html_css := light_html_css;
       app_stylesheet := light_app_stylesheet |} /\
  dark_theme s =
    {| pygments_css := [];
       html_css := dark_html_css;
       app_stylesheet := dark_app_stylesheet |}.
Proof.
  apply (setup_is_fixed (L := extras_libraries) AppConfig_default sample_world
           sample_events).
  split; reflexivity.
Defined.
